(** * physics_nemo_bridge: the simulation dispatcher and its analytical physics

    A shallow embedding of [src/server/python/physics_nemo_bridge.py].

    Numbers are binary64 floats, as Python's [float] and NumPy's [float64]
    are: Rocq's primitive floats with their IEEE 754 operations.  Python
    floats raise on a division by zero and on an overflowing power; NumPy
    scalars do not, and the source mixes the two.  What the program takes
    from outside is kept abstract:
    - the C library's [exp], [pow], [sin], [fmod] and [floor] (class
      [Libm], with two rules of C99 Annex F for [pow] as laws);
    - the neural-network forward passes, the wall clock and the Modulus
      package (record [Backend]);
    - [json.loads]: the input stream is the list of what it makes of each
      line (type [line]).

    Reading conventions:
    - the dictionaries of a request are records of optional floats: the
      model covers the requests whose numeric parameters are JSON numbers
      that [json.loads] decodes to a [float], and reads a number that
      decodes to an [int] as the float of the same value; [timeHorizon]
      alone keeps its type, which decides what [//] and [range] do.  The
      statements below are about these requests;
    - [x ** 2] is the rounded product [x * x], from which libm's [pow]
      may differ in the last bit;
    - PyTorch is installed (the classes of lines 54-75 need it), and the
      import block of lines 21-38 is read with line 29 indented like its
      neighbours. *)

From Stdlib Require Import Floats ZArith List String Bool Lia.
Import ListNotations.

Set Warnings "-inexact-float".
#[local] Open Scope float_scope.

(** ** Exceptions and the error monad *)

Inductive exn : Type :=
| ZeroDivisionError
| OverflowError
| TypeError
| KeyError (key : string)
| ValueError (msg : string)
| NameError (name : string)
| UnboundLocalError (name : string)
| AttributeError
| RecursionError (msg : string).

Inductive result (A : Type) : Type :=
| Ok (a : A)
| Raise (e : exn).
Arguments Ok {A} a.
Arguments Raise {A} e.

Definition bind {A B : Type} (c : result A) (k : A -> result B) : result B :=
  match c with
  | Ok a => k a
  | Raise e => Raise e
  end.

Notation "x <- c ;; k" := (bind c (fun x => k))
  (at level 61, c at next level, right associativity).

(** [str(e)] for the exceptions above (CPython's texts, short of the
    operand types they name). *)
Definition exn_message (e : exn) : string :=
  match e with
  | ZeroDivisionError => "float division by zero"
  | OverflowError => "(34, 'Numerical result out of range')"
  | TypeError => "unsupported operand type"
  | KeyError k => "'" ++ k ++ "'"
  | ValueError m => m
  | NameError n => "name '" ++ n ++ "' is not defined"
  | UnboundLocalError n =>
      "cannot access local variable '" ++ n
      ++ "' where it is not associated with a value"
  | AttributeError => "object has no attribute 'get'"
  | RecursionError m => m
  end%string.

(** ** The numeric library under the program *)

Class Libm : Type := {
  libm_exp : float -> float;
  libm_pow : float -> float -> float;
  libm_sin : float -> float;
  libm_cos : float -> float;
  libm_atan2 : float -> float -> float;
  libm_hypot : float -> float -> float;
  libm_fmod : float -> float -> float;
  libm_floor : float -> float;
  (** C99 F.9.4.4: [pow] of a base that is not below zero is not below
      zero, and [pow (NaN, y)] is NaN for [y <> 0]. *)
  libm_pow_sign : forall x y, (x <? 0) = false -> (libm_pow x y <? 0) = false;
  libm_pow_nan : forall y, is_zero y = false -> is_nan (libm_pow nan y) = true
}.

(** [np.pi] *)
Definition pi : float := 3.141592653589793.

(** Python [float / float]: a zero divisor raises. *)
Definition py_div (x y : float) : result float :=
  if is_zero y then Raise ZeroDivisionError else Ok (x / y).

(** Python [x ** 2] on a float (CPython [float_pow]): NaN, infinities and
    zeros are answered before libm is called; a finite base whose square
    is infinite raises [OverflowError].  For the other bases CPython
    returns libm's [pow (|x|, 2.0)]; the model takes the correctly rounded
    square [x * x] in its place, from which a libm may differ in the last
    bit (it does not where the square is exact, as for 150.0). *)
Definition py_sqr (x : float) : result float :=
  let r := x * x in
  if is_infinity r && negb (is_infinity x) then Raise OverflowError else Ok r.

(** A value of the formulas: a Python float, or the complex number that a
    negative base under a fractional power makes.  What the complex number
    is worth never shows: no response carries one. *)
Inductive number : Type :=
| Real (x : float)
| Complex.

(** CPython's [complex_pow] for a negative, finite base [x] and a
    fractional exponent [y] ([_Py_c_pow]): modulus [pow (hypot (x, 0), y)],
    phase [atan2 (0, x) * y]; an infinite real or imaginary part raises
    [OverflowError]. *)
Definition complex_pow {M : Libm} (x y : float) : result number :=
  let len := libm_pow (libm_hypot x 0) y in
  let phase := libm_atan2 0 x * y in
  if is_infinity (len * libm_cos phase) || is_infinity (len * libm_sin phase)
  then Raise OverflowError
  else Ok Complex.

(** Python [x ** y] on a float for the exponents 0.8, 0.4 and 0.25 of the
    source (positive, not integers), following CPython's [float_pow]:
    [nan ** y] is NaN, [(+-inf) ** y] is [inf], [(+-0) ** y] is [0.0], a
    negative base goes to [complex_pow], [1 ** y] is [1.0]; only then is
    libm's [pow] called, and an infinite result raises [OverflowError]. *)
Definition float_pow {M : Libm} (x y : float) : result number :=
  if is_nan x then Ok (Real x)
  else if is_infinity x then Ok (Real infinity)
  else if is_zero x then Ok (Real 0)
  else if x <? 0 then complex_pow x y
  else if x =? 1 then Ok (Real 1)
  else
    let r := libm_pow x y in
    if is_infinity r then Raise OverflowError else Ok (Real r).

(** [float(n)], and every comparison of [n] with a float: a complex number
    raises [TypeError]. *)
Definition as_float (n : number) : result float :=
  match n with
  | Real x => Ok x
  | Complex => Raise TypeError
  end.

(** Products of a number with a float or a number: no exception. *)
Definition scale (x : float) (n : number) : number :=
  match n with
  | Real y => Real (x * y)
  | Complex => Complex
  end.

Definition times (a b : number) : number :=
  match a, b with
  | Real x, Real y => Real (x * y)
  | _, _ => Complex
  end.

Definition times_float (n : number) (x : float) : number :=
  match n with
  | Real y => Real (y * x)
  | Complex => Complex
  end.

(** [n / y] for a float [y]: a zero divisor raises, for a float and for a
    complex number alike. *)
Definition over (n : number) (y : float) : result number :=
  if is_zero y then Raise ZeroDivisionError
  else Ok match n with
          | Real x => Real (x / y)
          | Complex => Complex
          end.

(** [x ** y] where the result is used as a float.  The source takes the
    power 0.25 only of a Reynolds number that is not below 2300, which is
    never negative. *)
Definition py_pow {M : Libm} (x y : float) : result float :=
  n <- float_pow x y ;; as_float n.

(** Python's two-argument [min]: the second argument wins only when it is
    smaller. *)
Definition py_min (a b : float) : float := if b <? a then b else a.

(** [min (n, b)] compares [b < n]. *)
Definition min_number (n : number) (b : float) : result float :=
  a <- as_float n ;; Ok (py_min a b).

(** NumPy scalars ([np.float64]): IEEE arithmetic, no exception; the
    warnings are silenced on line 19. *)
Definition np_div (x y : float) : float := x / y.
Definition np_exp {M : Libm} (x : float) : float := libm_exp x.
Definition np_pow {M : Libm} (x y : float) : float := libm_pow x y.
Definition np_sin {M : Libm} (x : float) : float := libm_sin x.

(** [float(n)] for a Python int: rounded to nearest even, [OverflowError]
    when out of range. *)
Definition Z2float (z : Z) : float :=
  SF2Prim (binary_normalize prec emax z 0 false).

Definition float_of_Z (z : Z) : result float :=
  let f := Z2float z in
  if is_infinity f then Raise OverflowError else Ok f.

(** Python [vx // wx] on floats for a divisor that is not zero (CPython
    [_float_div_mod]): the quotient of [vx] less its remainder, lowered by
    one when the remainder and the divisor differ in sign, then snapped to
    an integer; a zero quotient takes the sign of [vx / wx]. *)
Definition float_floor_div {M : Libm} (vx wx : float) : float :=
  let mod_ := libm_fmod vx wx in
  let div := (vx - mod_) / wx in
  let div :=
    if is_zero mod_ then div
    else if xorb (wx <? 0) (mod_ <? 0) then div - 1.0 else div in
  if is_zero div then (if get_sign (vx / wx) then neg_zero else zero)
  else
    let floordiv := libm_floor div in
    if 0.5 <? div - floordiv then floordiv + 1.0 else floordiv.

(** ** Request parameters

    The dictionaries of a request, one record per dictionary; a field is
    [None] when the key is absent, and [get] is [dict.get(key, default)]. *)

Definition get {A : Type} (o : option A) (default : A) : A :=
  match o with
  | Some v => v
  | None => default
  end.

Record Geometry : Type := {
  coilRadius : option float;
  turns : option float;
  pitch : option float;
  pipeRadius : option float;
  pipeLength : option float;
  roughness : option float
}.

Record ViscosityRelation : Type := {
  rel_a : option float;
  rel_b : option float;
  rel_c : option float
}.

Record MaterialProperties : Type := {
  viscosity : option float;
  density : option float;
  specificHeat : option float;
  thermalConductivity : option float;
  viscosityTemperatureRelation : option ViscosityRelation
}.

Record BoundaryConditions : Type := {
  coilInletTemp : option float
}.

(** A Python number whose type matters: [timeHorizon] as [json.loads]
    types it ([3600] is an int, [3600.0] a float) and the step count made
    from it. *)
Inductive pynum : Type :=
| PyInt (n : Z)
| PyFloat (x : float).

Record Parameters : Type := {
  temperature : option float;
  pressure : option float;
  flowRate : option float;
  timeHorizon : option pynum;
  boundaryConditions : option BoundaryConditions;
  geometry : option Geometry;
  materialProperties : option MaterialProperties;
  fluid_velocity : option (list float);
  fluid_viscosity : option float;
  fluid_density : option float;
  ball_radius : option float
}.

(** The empty dictionary [{}] at each type. *)
Definition no_geometry : Geometry :=
  {| coilRadius := None; turns := None; pitch := None;
     pipeRadius := None; pipeLength := None; roughness := None |}.
Definition no_properties : MaterialProperties :=
  {| viscosity := None; density := None; specificHeat := None;
     thermalConductivity := None; viscosityTemperatureRelation := None |}.
Definition no_conditions : BoundaryConditions := {| coilInletTemp := None |}.
Definition no_parameters : Parameters :=
  {| temperature := None; pressure := None; flowRate := None;
     timeHorizon := None; boundaryConditions := None; geometry := None;
     materialProperties := None; fluid_velocity := None;
     fluid_viscosity := None; fluid_density := None; ball_radius := None |}.

(** [d[key]]: a missing key raises [KeyError]. *)
Definition index (o : option float) (key : string) : result float :=
  match o with
  | Some v => Ok v
  | None => Raise (KeyError key)
  end.

(** ** What the bridge takes from its environment *)

Record Backend : Type := {
  (** [forward] of the three networks, on the encoded feature vector *)
  heat_forward : list float -> list float;
  fluid_forward : list float -> list float;
  multi_forward : list float -> list float;
  (** the two readings of [time.time()] while the n-th line is served *)
  clock : nat -> float * float;
  (** [MODULUS_AVAILABLE]: the imports of lines 23-32 succeeded, so that
      [FullyConnectedArch], [Key], [Domain], [NavierStokes] and [Solver]
      are bound *)
  modulus_available : bool;
  (** lines 525-546: building the network, the domain and the solver and
      running [solver.solve()], for a viscosity and a density *)
  modulus_solve : float -> float -> result unit
}.

(** Python slices [l[i:j]]. *)
Definition slice {A : Type} (l : list A) (i j : nat) : list A :=
  firstn (j - i) (skipn i l).

(** ** HeatTransferModel.compute_heat_transfer (lines 88-144) *)

Module HeatTransfer.
Record t : Type := {
  temperatureField : list float;
  pressureField : list float;
  flowVelocity : list float;
  heatFlux : list float;
  efficiency : float;
  heatTransferRate : float;
  reynoldsNumber : float;
  nusseltNumber : float;
  surfaceArea : float
}.
End HeatTransfer.

Definition compute_heat_transfer {M : Libm} (B : Backend)
    (tank_temp coil_inlet_temp flow_rate : float)
    (coil_geometry : Geometry) (oil_properties : MaterialProperties)
  : result HeatTransfer.t :=
  let inputs :=
    [ tank_temp; coil_inlet_temp; flow_rate;
      get (coilRadius coil_geometry) 0.5;
      get (turns coil_geometry) 3;
      get (viscosity oil_properties) 0.01;
      get (density oil_properties) 850.0;
      get (specificHeat oil_properties) 2100.0 ] in
  let results := heat_forward B inputs in
  let delta_t := coil_inlet_temp - tank_temp in
  reynolds_number <-
    py_div (get (density oil_properties) 850.0 * flow_rate
            * get (pipeRadius coil_geometry) 0.05 * 2)
           (get (viscosity oil_properties) 0.01) ;;
  prandtl_number <-
    py_div (get (viscosity oil_properties) 0.01
            * get (specificHeat oil_properties) 2100.0)
           (get (thermalConductivity oil_properties) 0.14) ;;
  re_pow <- float_pow reynolds_number 0.8 ;;
  pr_pow <- float_pow prandtl_number 0.4 ;;
  let nusselt_number := times (scale 0.023 re_pow) pr_pow in
  heat_transfer_coeff <-
    over (times_float nusselt_number
                      (get (thermalConductivity oil_properties) 0.14))
         (get (pipeRadius coil_geometry) 0.05 * 2) ;;
  let surface_area :=
    2 * pi * get (coilRadius coil_geometry) 0.5
    * get (turns coil_geometry) 3 * get (pitch coil_geometry) 0.1 in
  let heat_transfer_rate :=
    times_float (times_float heat_transfer_coeff surface_area) delta_t in
  let max_possible_heat_transfer :=
    flow_rate * get (density oil_properties) 850.0
    * get (specificHeat oil_properties) 2100.0 * delta_t in
  efficiency <-
    (if 0 <? max_possible_heat_transfer
     then q <- over heat_transfer_rate max_possible_heat_transfer ;;
          min_number q 1.0
     else Ok 0.0) ;;
  heat_transfer_rate <- as_float heat_transfer_rate ;;
  nusselt_number <- as_float nusselt_number ;;
  Ok {| HeatTransfer.temperatureField := slice results 0 4;
        HeatTransfer.pressureField := slice results 4 8;
        HeatTransfer.flowVelocity := slice results 8 10;
        HeatTransfer.heatFlux := slice results 10 12;
        HeatTransfer.efficiency := efficiency;
        HeatTransfer.heatTransferRate := heat_transfer_rate;
        HeatTransfer.reynoldsNumber := reynolds_number;
        HeatTransfer.nusseltNumber := nusselt_number;
        HeatTransfer.surfaceArea := surface_area |}.

(** ** FluidDynamicsModel.compute_fluid_dynamics (lines 152-200) *)

Module FluidDynamics.
Record t : Type := {
  velocityField : list float;
  pressureField : list float;
  turbulenceField : list float;
  reynoldsNumber : float;
  frictionFactor : float;
  pressureDrop : float;
  velocity : float
}.
End FluidDynamics.

Definition compute_fluid_dynamics {M : Libm} (B : Backend)
    (temperature pressure flow_rate : float)
    (geometry : Geometry) (fluid_properties : MaterialProperties)
  : result FluidDynamics.t :=
  let inputs :=
    [ temperature; pressure; flow_rate;
      get (viscosity fluid_properties) 0.01;
      get (density fluid_properties) 850.0;
      get (pipeRadius geometry) 0.05 ] in
  let results := fluid_forward B inputs in
  radius_sq <- py_sqr (get (pipeRadius geometry) 0.05) ;;
  let pipe_area := pi * radius_sq in
  velocity <- py_div flow_rate pipe_area ;;
  reynolds_number <-
    py_div (get (density fluid_properties) 850.0 * velocity
            * get (pipeRadius geometry) 0.05 * 2)
           (get (viscosity fluid_properties) 0.01) ;;
  friction_factor <-
    (if reynolds_number <? 2300
     then py_div 64 reynolds_number
     else p <- py_pow reynolds_number 0.25 ;; py_div 0.316 p) ;;
  let pipe_length := get (pipeLength geometry) 10.0 in
  length_ratio <- py_div pipe_length (get (pipeRadius geometry) 0.05 * 2) ;;
  velocity_sq <- py_sqr velocity ;;
  let pressure_drop :=
    friction_factor * length_ratio
    * (get (density fluid_properties) 850.0 * velocity_sq) / 2 in
  Ok {| FluidDynamics.velocityField := slice results 0 3;
        FluidDynamics.pressureField := slice results 3 6;
        FluidDynamics.turbulenceField := slice results 6 8;
        FluidDynamics.reynoldsNumber := reynolds_number;
        FluidDynamics.frictionFactor := friction_factor;
        FluidDynamics.pressureDrop := pressure_drop;
        FluidDynamics.velocity := velocity |}.

(** ** MultiPhaseFlowModel.compute_multi_phase_flow (lines 208-269)

    [viscosity] is the product of a coefficient and [np.exp (...)], an
    [np.float64]; every operation it enters is NumPy's: the Reynolds
    number, both friction-factor formulas and the pressure drop divide and
    raise to a power without raising an exception. *)

Module MultiPhase.
Record t : Type := {
  velocityField : list float;
  pressureField : list float;
  temperatureField : list float;
  viscosityField : list float;
  reynoldsNumber : float;
  frictionFactor : float;
  pressureDrop : float;
  effectiveViscosity : float;
  velocity : float
}.
End MultiPhase.

Definition default_viscosity_relation : ViscosityRelation :=
  {| rel_a := Some 1.5; rel_b := Some (-0.02); rel_c := Some 0.0001 |}.

Definition compute_multi_phase_flow {M : Libm} (B : Backend)
    (temperature pressure flow_rate : float)
    (geometry : Geometry) (asphalt_properties : MaterialProperties)
  : result MultiPhase.t :=
  let viscosity_relation :=
    get (viscosityTemperatureRelation asphalt_properties)
        default_viscosity_relation in
  a <- index (rel_a viscosity_relation) "a" ;;
  b <- index (rel_b viscosity_relation) "b" ;;
  c <- index (rel_c viscosity_relation) "c" ;;
  temperature_sq <- py_sqr temperature ;;
  let viscosity := a * np_exp (b * temperature + c * temperature_sq) in
  let inputs :=
    [ temperature; pressure; flow_rate; viscosity;
      get (density asphalt_properties) 1000.0;
      get (pipeRadius geometry) 0.1;
      get (pipeLength geometry) 50.0;
      get (roughness geometry) 0.001;
      get (specificHeat asphalt_properties) 2000.0;
      get (thermalConductivity asphalt_properties) 0.8 ] in
  let results := multi_forward B inputs in
  radius_sq <- py_sqr (get (pipeRadius geometry) 0.1) ;;
  let pipe_area := pi * radius_sq in
  velocity <- py_div flow_rate pipe_area ;;
  let reynolds_number :=
    np_div (get (density asphalt_properties) 1000.0 * velocity
            * get (pipeRadius geometry) 0.1 * 2)
           viscosity in
  let friction_factor :=
    if reynolds_number <? 2100
    then np_div 64 reynolds_number
    else np_div 0.316 (np_pow reynolds_number 0.25) in
  let pipe_length := get (pipeLength geometry) 50.0 in
  length_ratio <- py_div pipe_length (get (pipeRadius geometry) 0.1 * 2) ;;
  velocity_sq <- py_sqr velocity ;;
  let pressure_drop :=
    friction_factor * length_ratio
    * (get (density asphalt_properties) 1000.0 * velocity_sq) / 2 in
  Ok {| MultiPhase.velocityField := slice results 0 3;
        MultiPhase.pressureField := slice results 3 6;
        MultiPhase.temperatureField := slice results 6 8;
        MultiPhase.viscosityField := slice results 8 10;
        MultiPhase.reynoldsNumber := reynolds_number;
        MultiPhase.frictionFactor := friction_factor;
        MultiPhase.pressureDrop := pressure_drop;
        MultiPhase.effectiveViscosity := viscosity;
        MultiPhase.velocity := velocity |}.

(** ** TankPhysicsSimulator (lines 271-557) *)

Record SimulationResult : Type := {
  predictedStates : list (float * float);
  temperatureField : list (list float);
  pressureField : list (list float);
  flowVelocity : list (list float);
  heatFlux : list float;
  efficiency : float;
  confidence : float;
  computationTime : float;
  energyConsumption : float;
  optimalSetpoints : list (string * float);
  additionalMetrics : list (string * float)
}.

(** [time_horizon // 60] *)
Definition floor_div_60 {M : Libm} (time_horizon : pynum) : pynum :=
  match time_horizon with
  | PyInt n => PyInt (n / 60)
  | PyFloat x => PyFloat (float_floor_div x 60)
  end.

(** [min(cap, v)] for the int [cap]: [v] is returned, with its own type,
    only when it is smaller. *)
Definition min_cap (cap : Z) (v : pynum) : pynum :=
  match v with
  | PyInt n => if (n <? cap)%Z then PyInt n else PyInt cap
  | PyFloat x => if x <? Z2float cap then PyFloat x else PyInt cap
  end.

(** [range(n)]: empty for a negative int, [TypeError] for a float. *)
Definition range (n : pynum) : result (list nat) :=
  match n with
  | PyInt n => Ok (seq 0 (Z.to_nat n))
  | PyFloat _ => Raise TypeError
  end.

(** [i / time_steps] inside the loop, where [time_steps] is an int. *)
Definition time_factor (i : nat) (time_steps : pynum) : float :=
  match time_steps with
  | PyInt n => Z2float (Z.of_nat i) / Z2float n
  | PyFloat x => Z2float (Z.of_nat i) / x
  end.

(** [x * time_horizon] for a float [x]. *)
Definition mul_pynum (x : float) (n : pynum) : result float :=
  match n with
  | PyInt n => f <- float_of_Z n ;; Ok (x * f)
  | PyFloat y => Ok (x * y)
  end.

Definition simulate_thermal_coil {M : Libm} (B : Backend) (n : nat)
    (parameters : Parameters) : result SimulationResult :=
  let '(start_time, end_time) := clock B n in
  let tank_temp := get (temperature parameters) 120.0 in
  let coil_inlet_temp :=
    get (coilInletTemp (get (boundaryConditions parameters) no_conditions))
        180.0 in
  let flow_rate := get (flowRate parameters) 1.0 in
  let coil_geometry := get (geometry parameters) no_geometry in
  let oil_properties := get (materialProperties parameters) no_properties in
  heat_transfer_result <-
    compute_heat_transfer B tank_temp coil_inlet_temp flow_rate
                          coil_geometry oil_properties ;;
  let time_horizon := get (timeHorizon parameters) (PyInt 3600) in
  let time_steps := min_cap 60 (floor_div_60 time_horizon) in
  steps <- range time_steps ;;
  let predicted_states :=
    map (fun i =>
           let time_factor := time_factor i time_steps in
           let temp_evolution :=
             tank_temp
             + (coil_inlet_temp - tank_temp)
               * HeatTransfer.efficiency heat_transfer_result * time_factor in
           (temp_evolution,
            HeatTransfer.heatTransferRate heat_transfer_result
            * (1 - time_factor * 0.1)))
        steps in
  joules <-
    mul_pynum (HeatTransfer.heatTransferRate heat_transfer_result)
              time_horizon ;;
  energy_consumption <- py_div joules 3600000 ;;
  let optimal_setpoints :=
    [ ("temperature", tank_temp + 10);
      ("flowRate", flow_rate * 1.1);
      ("pressure", get (pressure parameters) 2.0 * 1.05) ]%string in
  let computation_time := end_time - start_time in
  Ok {| predictedStates := predicted_states;
        temperatureField :=
          [HeatTransfer.temperatureField heat_transfer_result];
        pressureField := [HeatTransfer.pressureField heat_transfer_result];
        flowVelocity := [HeatTransfer.flowVelocity heat_transfer_result];
        heatFlux := HeatTransfer.heatFlux heat_transfer_result;
        efficiency := HeatTransfer.efficiency heat_transfer_result;
        confidence := 0.92;
        computationTime := computation_time;
        energyConsumption := energy_consumption;
        optimalSetpoints := optimal_setpoints;
        additionalMetrics :=
          [ ("reynoldsNumber",
             HeatTransfer.reynoldsNumber heat_transfer_result);
            ("nusseltNumber",
             HeatTransfer.nusseltNumber heat_transfer_result);
            ("surfaceArea",
             HeatTransfer.surfaceArea heat_transfer_result) ]%string |}.

Definition simulate_fluid_dynamics {M : Libm} (B : Backend) (n : nat)
    (parameters : Parameters) : result SimulationResult :=
  let '(start_time, end_time) := clock B n in
  let temperature := get (temperature parameters) 120.0 in
  let pressure := get (pressure parameters) 2.0 in
  let flow_rate := get (flowRate parameters) 1.0 in
  let geometry := get (geometry parameters) no_geometry in
  let fluid_properties := get (materialProperties parameters) no_properties in
  fluid_result <-
    compute_fluid_dynamics B temperature pressure flow_rate
                           geometry fluid_properties ;;
  let time_horizon := get (timeHorizon parameters) (PyInt 3600) in
  let time_steps := min_cap 60 (floor_div_60 time_horizon) in
  steps <- range time_steps ;;
  let predicted_states :=
    map (fun i =>
           let time_factor := time_factor i time_steps in
           let velocity_evolution :=
             FluidDynamics.velocity fluid_result
             * (1 + 0.1 * np_sin (time_factor * 2 * pi)) in
           let pressure_evolution :=
             pressure - FluidDynamics.pressureDrop fluid_result * time_factor in
           (velocity_evolution, pressure_evolution))
        steps in
  let computation_time := end_time - start_time in
  Ok {| predictedStates := predicted_states;
        temperatureField := [repeat temperature 4];
        pressureField := [FluidDynamics.pressureField fluid_result];
        flowVelocity := [FluidDynamics.velocityField fluid_result];
        heatFlux := [0.0; 0.0];
        efficiency := 0.85;
        confidence := 0.88;
        computationTime := computation_time;
        energyConsumption := 0.1;
        optimalSetpoints :=
          [ ("temperature", temperature);
            ("flowRate", flow_rate * 1.05);
            ("pressure", pressure * 1.1) ]%string;
        additionalMetrics :=
          [ ("reynoldsNumber", FluidDynamics.reynoldsNumber fluid_result);
            ("frictionFactor", FluidDynamics.frictionFactor fluid_result);
            ("pressureDrop", FluidDynamics.pressureDrop fluid_result)
          ]%string |}.

Definition simulate_multi_phase {M : Libm} (B : Backend) (n : nat)
    (parameters : Parameters) : result SimulationResult :=
  let '(start_time, end_time) := clock B n in
  let temperature := get (temperature parameters) 150.0 in
  let pressure := get (pressure parameters) 1.5 in
  let flow_rate := get (flowRate parameters) 0.5 in
  let geometry := get (geometry parameters) no_geometry in
  let asphalt_properties :=
    get (materialProperties parameters) no_properties in
  flow_result <-
    compute_multi_phase_flow B temperature pressure flow_rate
                             geometry asphalt_properties ;;
  let time_horizon := get (timeHorizon parameters) (PyInt 1800) in
  let time_steps := min_cap 30 (floor_div_60 time_horizon) in
  steps <- range time_steps ;;
  let predicted_states :=
    map (fun i =>
           let time_factor := time_factor i time_steps in
           let temp_evolution := temperature - 2 * time_factor in
           let viscosity_evolution :=
             MultiPhase.effectiveViscosity flow_result
             * (1 + 0.5 * time_factor) in
           (temp_evolution, viscosity_evolution))
        steps in
  let computation_time := end_time - start_time in
  Ok {| predictedStates := predicted_states;
        temperatureField := [MultiPhase.temperatureField flow_result];
        pressureField := [MultiPhase.pressureField flow_result];
        flowVelocity := [MultiPhase.velocityField flow_result];
        heatFlux := [0.0; 0.0];
        efficiency := 0.78;
        confidence := 0.85;
        computationTime := computation_time;
        energyConsumption := 0.05;
        optimalSetpoints :=
          [ ("temperature", temperature + 5);
            ("flowRate", flow_rate * 0.95);
            ("pressure", pressure * 1.15) ]%string;
        additionalMetrics :=
          [ ("reynoldsNumber", MultiPhase.reynoldsNumber flow_result);
            ("effectiveViscosity", MultiPhase.effectiveViscosity flow_result);
            ("pressureDrop", MultiPhase.pressureDrop flow_result)
          ]%string |}.

(** *** Module globals

    The names the import statements bind (lines 8-16 and 41-43, and lines
    23-32 when Modulus is installed).  [traceback] is not among them. *)

Definition module_imports : list string :=
  [ "sys"; "json"; "time"; "logging"; "np"; "asyncio"; "Dict"; "List";
    "Any"; "Optional"; "Tuple"; "dataclass"; "warnings"; "torch"; "nn";
    "optim" ]%string.

Definition modulus_imports : list string :=
  [ "modulus"; "FNOArch"; "FullyConnectedArch"; "NavierStokes"; "Diffusion";
    "Domain"; "Key"; "Box"; "Solver"; "DictInferenceDataset" ]%string.

Definition bound (B : Backend) (name : string) : bool :=
  existsb (String.eqb name)
          (module_imports
           ++ if modulus_available B then modulus_imports else []).

(** Evaluating a global name. *)
Definition lookup_global (B : Backend) (name : string) : result unit :=
  if bound B name then Ok tt else Raise (NameError name).

(** *** ExternalFlowModel.compute_external_flow (lines 516-557) *)

Module ExternalFlow.
Record t : Type := {
  drag_coefficient : float;
  image : string
}.
End ExternalFlow.

Definition compute_external_flow (B : Backend)
    (fluid_velocity : list float)
    (fluid_viscosity fluid_density ball_radius : float)
  : result ExternalFlow.t :=
  _ <- lookup_global B "FullyConnectedArch" ;;
  _ <- modulus_solve B fluid_viscosity fluid_density ;;
  let drag_coefficient := 0.5 in
  Ok {| ExternalFlow.drag_coefficient := drag_coefficient;
        ExternalFlow.image :=
          "iVBORw0KGgoAAAANSUhEUgAAAAEAAAABCAQAAAC1HAwCAAAAC0lEQVR42mNkYAAAAAYAAjCB0C8AAAAASUVORK5CYII=" |}.

Definition simulate_external_flow_golf_ball (B : Backend) (n : nat)
    (parameters : Parameters) : result SimulationResult :=
  let '(start_time, end_time) := clock B n in
  let fluid_velocity := get (fluid_velocity parameters) [10.0; 0.0; 0.0] in
  let fluid_viscosity := get (fluid_viscosity parameters) 1.81e-5 in
  let fluid_density := get (fluid_density parameters) 1.225 in
  let ball_radius := get (ball_radius parameters) 0.02135 in
  external_flow_result <-
    compute_external_flow B fluid_velocity fluid_viscosity fluid_density
                          ball_radius ;;
  let computation_time := end_time - start_time in
  Ok {| predictedStates := [];
        temperatureField := [];
        pressureField := [];
        flowVelocity := [];
        heatFlux := [];
        efficiency := 0;
        confidence := 0.9;
        computationTime := computation_time;
        energyConsumption := 0;
        optimalSetpoints := [];
        additionalMetrics :=
          [ ("dragCoefficient",
             ExternalFlow.drag_coefficient external_flow_result) ]%string |}.

(** ** The protocol loop: main (lines 559-629) *)

Record Request : Type := {
  requestId : option string;
  simulationType : option string;
  tankId : option Z;
  parameters : option Parameters
}.

(** One line of standard input, by what [json.loads] makes of it: a
    [JSONDecodeError] with its message; another exception (the
    [ValueError] of an integer literal beyond the digit limit, the
    [RecursionError] of a deep nesting), which the handler of
    [JSONDecodeError] does not catch; a JSON value that is not an object
    (a number, a string, a list, [null]); or an object. *)
Inductive line : Type :=
| Malformed (msg : string)
| Rejected (e : exn)
| NotAnObject
| Parsed (request : Request).

(** The local variable [request] of [main]: not assigned before the first
    line that decodes, then the value [json.loads] returned last, which a
    line that does not decode leaves in place. *)
Inductive binding : Type :=
| Unassigned
| NotADict
| Dict (request : Request).

(** Line 580, [request = json.loads(line.strip())]. *)
Definition assign (request : binding) (l : line) : binding :=
  match l with
  | Malformed _ | Rejected _ => request
  | NotAnObject => NotADict
  | Parsed decoded => Dict decoded
  end.

(** One line of standard output. *)
Inductive output : Type :=
| INIT_COMPLETE
| Response (requestId : string) (tankId : Z) (result : SimulationResult)
| ErrorResult (error : string) (requestId : string).

(** How the process ends: the input was exhausted, or an exception left
    the loop and [__main__] exits with status 1. *)
Inductive outcome : Type :=
| EndOfInput
| Fatal (e : exn).

(** Lines 587-597: routing on [simulationType]. *)
Definition route {M : Libm} (B : Backend) (n : nat) (request : Request)
  : result SimulationResult :=
  let simulation_type := get (simulationType request) "unknown"%string in
  let params := get (parameters request) no_parameters in
  if String.eqb simulation_type "thermal_coil" then
    simulate_thermal_coil B n params
  else if String.eqb simulation_type "fluid_dynamics" then
    simulate_fluid_dynamics B n params
  else if String.eqb simulation_type "multi_phase" then
    simulate_multi_phase B n params
  else if String.eqb simulation_type "external_flow_golf_ball" then
    simulate_external_flow_golf_ball B n params
  else
    Raise (ValueError ("Unknown simulation type: " ++ simulation_type)).

(** What one iteration does to the loop. *)
Inductive step : Type :=
| Written (o : output)
| Escaped (e : exn).

(** Lines 620-629, the handler of [except Exception as e]: after the first
    log line it evaluates [traceback.format_exc()], then builds the error
    response from [request], the local variable as the step that failed
    left it, and prints it. *)
Definition handle_exception (B : Backend) (request : binding)
    (e : exn) : step :=
  match lookup_global B "traceback" with
  | Raise e' => Escaped e'
  | Ok _ =>
      match request with
      | Unassigned => Escaped (UnboundLocalError "request")
      | NotADict => Escaped AttributeError
      | Dict request =>
          Written (ErrorResult (exn_message e)
                               (get (requestId request) "unknown"%string))
      end
  end.

(** The body of [while True] for one line that was read (lines 580-629);
    [request] is the local variable as the lines before left it. *)
Definition serve {M : Libm} (B : Backend) (n : nat) (request : binding)
    (l : line) : step :=
  match l with
  | Malformed msg =>
      Written (ErrorResult ("Invalid JSON: " ++ msg) "unknown")
  | Rejected e => handle_exception B request e
  | NotAnObject => handle_exception B NotADict AttributeError
  | Parsed decoded =>
      let request_id := get (requestId decoded) "unknown"%string in
      let tank_id := get (tankId decoded) 0%Z in
      match route B n decoded with
      | Ok result => Written (Response request_id tank_id result)
      | Raise e => handle_exception B (Dict decoded) e
      end
  end.

(** The loop over the lines that [readline] returns before the end of the
    input; [n] counts the lines read so far. *)
Fixpoint main_loop {M : Libm} (B : Backend) (n : nat) (request : binding)
    (stdin : list line) : list output * outcome :=
  match stdin with
  | [] => ([], EndOfInput)
  | l :: rest =>
      match serve B n request l with
      | Written o =>
          let '(outs, final) := main_loop B (S n) (assign request l) rest in
          (o :: outs, final)
      | Escaped e => ([], Fatal e)
      end
  end.

Definition main {M : Libm} (B : Backend) (stdin : list line)
  : list output * outcome :=
  let '(outs, final) := main_loop B 0 Unassigned stdin in
  (INIT_COMPLETE :: outs, final).

(** ** Vocabulary of the statements *)

(** Classes of floats, on the specification side. *)

(** Zero (of either sign), positive, or NaN: what is not below zero. *)
Definition sf_not_neg (s : spec_float) : bool :=
  match s with
  | S754_zero _ | S754_nan => true
  | S754_infinity b | S754_finite b _ _ => negb b
  end.

(** Strictly positive. *)
Definition sf_pos (s : spec_float) : bool :=
  match s with
  | S754_infinity false | S754_finite false _ _ => true
  | _ => false
  end.

Definition sf_nan (s : spec_float) : bool :=
  match s with S754_nan => true | _ => false end.

Definition sf_zero (s : spec_float) : bool :=
  match s with S754_zero _ => true | _ => false end.

(** Zero or NaN; infinite or NaN. *)
Definition sf_zero_nan (s : spec_float) : bool := sf_zero s || sf_nan s.
Definition sf_inf_nan (s : spec_float) : bool :=
  match s with S754_infinity _ | S754_nan => true | _ => false end.

(** [x] is not below zero: positive, a zero, or NaN. *)
Definition not_below_zero (x : float) : Prop := (x <? 0) = false.

Definition zero_or_nan (x : float) : Prop := sf_zero_nan (Prim2SF x) = true.
Definition inf_or_nan (x : float) : Prop := sf_inf_nan (Prim2SF x) = true.

(** Every parameter that is present is a number [>= 0]. *)
Definition nonneg_opt (o : option float) : bool :=
  match o with
  | Some x => 0 <=? x
  | None => true
  end.

Definition valid_thermal_coil (tank_temp coil_inlet_temp flow_rate : float)
    (g : Geometry) (m : MaterialProperties) : bool :=
  (0 <=? tank_temp) && (0 <=? coil_inlet_temp) && (0 <=? flow_rate)
  && nonneg_opt (coilRadius g) && nonneg_opt (turns g)
  && nonneg_opt (pitch g) && nonneg_opt (pipeRadius g)
  && nonneg_opt (viscosity m) && nonneg_opt (density m)
  && nonneg_opt (specificHeat m) && nonneg_opt (thermalConductivity m).

(** The number of samples for an integer time horizon [h] and a cap:
    [max (0, min (cap, h // 60))], which is [min (cap, h // 60)] from
    [h = 0] on and none up to there. *)
Definition trajectory_length (cap h : Z) (len : nat) : Prop :=
  (Z.of_nat len = Z.max 0 (Z.min cap (h / 60))
   /\ (0 <= h -> Z.of_nat len = Z.min cap (h / 60))
   /\ (h <= 0 -> len = 0%nat))%Z.

(** The scalars of a response that the analytical formulas make:
    efficiency, energy consumption and the additional metrics (Reynolds
    number, friction factor, pressure drop, ...). *)
Definition analytical_scalars (r : SimulationResult)
  : float * float * list (string * float) :=
  (efficiency r, energyConsumption r, additionalMetrics r).

(** The answer to a line that [json.loads] rejected with message [msg]. *)
Definition invalid_json (msg : string) : output :=
  ErrorResult ("Invalid JSON: " ++ msg) "unknown".

(** ** An environment for the examples

    A small [Libm]: [fmod] and [floor] are exact, computed on the
    mantissa and exponent of their arguments; [exp] and [pow] answer 1
    ([pow] NaN on a NaN base) and [sin] answers 0.  The networks answer
    zeros and the clock ticks half a second per request.  The examples
    use inputs on which [exp], [pow] and [sin] are not reached or their
    value does not matter. *)

(** The integer [n] with [x = n * 2 ^ e0], for a finite [x] whose exponent
    is at least [e0]. *)
Definition scaled (s : spec_float) (e0 : Z) : Z :=
  match s with
  | S754_finite sign m e => cond_Zopp sign (Zpos m) * 2 ^ (e - e0)
  | _ => 0
  end.

Definition exact_fmod (x y : float) : float :=
  match Prim2SF x, Prim2SF y with
  | S754_finite sign _ ex, S754_finite _ _ ey =>
      let e0 := Z.min ex ey in
      let r := Z.rem (scaled (Prim2SF x) e0) (scaled (Prim2SF y) e0) in
      if (r =? 0)%Z then (if sign then neg_zero else zero)
      else SF2Prim (binary_normalize prec emax r e0 false)
  | S754_zero _, S754_finite _ _ _ => x
  | (S754_zero _ | S754_finite _ _ _), S754_infinity _ => x
  | _, _ => nan
  end.

Definition exact_floor (x : float) : float :=
  match Prim2SF x with
  | S754_finite sign m e =>
      if (0 <=? e)%Z then x
      else Z2float (cond_Zopp sign (Zpos m) / 2 ^ (- e))
  | _ => x
  end.

Definition sample_libm : Libm.
Proof.
  refine {| libm_exp := fun _ => 1;
            libm_pow := fun x _ => if is_nan x then nan else 1;
            libm_sin := fun _ => 0;
            libm_cos := fun _ => 1;
            libm_atan2 := fun _ _ => pi;
            libm_hypot := fun x _ => abs x;
            libm_fmod := exact_fmod;
            libm_floor := exact_floor |}.
  - intros x y _. destruct (is_nan x); reflexivity.
  - reflexivity.
Defined.

Definition sample_backend (modulus : bool) : Backend :=
  {| heat_forward := fun _ => repeat 0 12;
     fluid_forward := fun _ => repeat 0 8;
     multi_forward := fun _ => repeat 0 10;
     clock := fun n => (Z2float (Z.of_nat n), Z2float (Z.of_nat n) + 0.5);
     modulus_available := modulus;
     modulus_solve := fun _ _ => Ok tt |}.

(** Example requests. *)

(** Fluid-dynamics parameters in the laminar regime (Re is about 1082):
    no libm function is reached. *)
Definition laminar_parameters (time_horizon : pynum) : Parameters :=
  {| temperature := None; pressure := None; flowRate := Some 0.001;
     timeHorizon := Some time_horizon; boundaryConditions := None;
     geometry := None; materialProperties := None; fluid_velocity := None;
     fluid_viscosity := None; fluid_density := None; ball_radius := None |}.

(** Thermal-coil parameters with Reynolds and Prandtl numbers equal to 1,
    which Python raises to a power without libm; the coil inlet is at
    [coil_inlet_temp] and the tank at its default 120. *)
Definition unit_coil_parameters (coil_inlet_temp : float) : Parameters :=
  {| temperature := None; pressure := None; flowRate := Some 1.0;
     timeHorizon := None;
     boundaryConditions := Some {| coilInletTemp := Some coil_inlet_temp |};
     geometry :=
       Some {| coilRadius := None; turns := None; pitch := None;
               pipeRadius := Some 0.5; pipeLength := None;
               roughness := None |};
     materialProperties :=
       Some {| viscosity := Some 1.0; density := Some 1.0;
               specificHeat := Some 1.0; thermalConductivity := Some 1.0;
               viscosityTemperatureRelation := None |};
     fluid_velocity := None; fluid_viscosity := None; fluid_density := None;
     ball_radius := None |}.

(** Thermal-coil parameters with an oil of viscosity zero. *)
Definition zero_viscosity_parameters : Parameters :=
  {| temperature := None; pressure := None; flowRate := None;
     timeHorizon := None; boundaryConditions := None; geometry := None;
     materialProperties :=
       Some {| viscosity := Some 0.0; density := None; specificHeat := None;
               thermalConductivity := None;
               viscosityTemperatureRelation := None |};
     fluid_velocity := None; fluid_viscosity := None; fluid_density := None;
     ball_radius := None |}.

(** A coil whose oil has a density of 1e308: with a flow rate of 1e308 the
    Reynolds number overflows, while the Prandtl number is 1. *)
Definition overflowing_coil : Geometry :=
  {| coilRadius := None; turns := None; pitch := None;
     pipeRadius := Some 0.5; pipeLength := None; roughness := None |}.

Definition dense_oil : MaterialProperties :=
  {| viscosity := Some 1.0; density := Some 1e308; specificHeat := Some 1.0;
     thermalConductivity := Some 1.0; viscosityTemperatureRelation := None |}.

(** Material properties whose density is NaN, which Python's [json.loads]
    reads from the token [NaN]. *)
Definition nan_density_properties : MaterialProperties :=
  {| viscosity := None; density := Some nan; specificHeat := None;
     thermalConductivity := None; viscosityTemperatureRelation := None |}.

Definition request (id type : string) (p : option Parameters) : Request :=
  {| requestId := Some id; simulationType := Some type; tankId := Some 3%Z;
     parameters := p |}.

(** ** Vocabulary of the further properties *)

(** The [requestId] a line asks to be answered under, and the one an
    output line carries. *)
Definition line_id (l : line) : string :=
  match l with
  | Parsed request => get (requestId request) "unknown"%string
  | Malformed _ | Rejected _ | NotAnObject => "unknown"%string
  end.

Definition output_id (o : output) : string :=
  match o with
  | INIT_COMPLETE => EmptyString
  | Response id _ _ => id
  | ErrorResult _ id => id
  end.

(** A line that the loop answers: one that [json.loads] rejects with a
    [JSONDecodeError], or a request whose simulation returns, when it is
    the [n]-th line read. *)
Definition answered {M : Libm} (B : Backend) (n : nat) (l : line) : bool :=
  match l with
  | Malformed _ => true
  | Rejected _ | NotAnObject => false
  | Parsed request =>
      match route B n request with Ok _ => true | Raise _ => false end
  end.

(** Every line of [stdin] is answered, the first being the [n]-th read. *)
Fixpoint all_answered {M : Libm} (B : Backend) (n : nat) (stdin : list line)
  : bool :=
  match stdin with
  | [] => true
  | l :: rest => answered B n l && all_answered B (S n) rest
  end.

(** The analytical inputs of the fluid-dynamics module are [>= 0]. *)
Definition valid_fluid_dynamics (flow_rate : float) (g : Geometry)
    (m : MaterialProperties) : bool :=
  (0 <=? flow_rate) && nonneg_opt (pipeRadius g) && nonneg_opt (pipeLength g)
  && nonneg_opt (viscosity m) && nonneg_opt (density m).

(** The first of the keys [a], [b], [c] that a viscosity-temperature
    relation given in the request lacks. *)
Definition missing_coefficient (m : MaterialProperties) : option string :=
  match viscosityTemperatureRelation m with
  | None => None
  | Some relation =>
      match rel_a relation, rel_b relation, rel_c relation with
      | None, _, _ => Some "a"%string
      | Some _, None, _ => Some "b"%string
      | Some _, Some _, None => Some "c"%string
      | Some _, Some _, Some _ => None
      end
  end.

(** The time horizon of the request is absent or an int. *)
Definition integer_horizon (p : Parameters) : bool :=
  match timeHorizon p with
  | Some (PyFloat _) => false
  | _ => true
  end.

(** [ok] holds of the time factor [i / k] of every sample [i] of every
    step count [k] up to [cap]. *)
Definition time_factors_ok (cap : nat) (ok : float -> bool) : bool :=
  forallb (fun k =>
             forallb (fun i => ok (time_factor i (PyInt (Z.of_nat k))))
                     (seq 0 k))
          (seq 0 (S cap)).

(** The ranges of the factors that shape a trajectory: the time factor in
    [0, 1); the decay of the heat-transfer rate in (0.9, 1]; the phase of
    the velocity oscillation in [0, 2 pi); the growth of the viscosity in
    [1, 1.5). *)
Definition unit_interval (tf : float) : bool := (0 <=? tf) && (tf <? 1).
Definition decay_range (tf : float) : bool :=
  (0.9 <? 1 - tf * 0.1) && (1 - tf * 0.1 <=? 1).
Definition phase_range (tf : float) : bool :=
  (0 <=? tf * 2 * pi) && (tf * 2 * pi <? 2 * pi).
Definition growth_range (tf : float) : bool :=
  (1 <=? 1 + 0.5 * tf) && (1 + 0.5 * tf <? 1.5).

(** The time horizon is an int too large for [float()]. *)
Definition horizon_overflows (p : Parameters) : bool :=
  match timeHorizon p with
  | Some (PyInt h) => is_infinity (Z2float h)
  | _ => false
  end.

(** What a computation yields under a projection of its result: the
    projected value, or the same exception. *)
Definition map_result {A B : Type} (f : A -> B) (c : result A) : result B :=
  match c with
  | Ok a => Ok (f a)
  | Raise e => Raise e
  end.

(** The numbers each physics module computes by formula, as opposed to
    the fields it cuts out of the network's output. *)
Definition heat_transfer_numbers (r : HeatTransfer.t)
  : float * float * float :=
  (HeatTransfer.reynoldsNumber r, HeatTransfer.nusseltNumber r,
   HeatTransfer.surfaceArea r).

Definition fluid_dynamics_numbers (r : FluidDynamics.t)
  : float * float * float * float :=
  (FluidDynamics.velocity r, FluidDynamics.reynoldsNumber r,
   FluidDynamics.frictionFactor r, FluidDynamics.pressureDrop r).

Definition multi_phase_numbers (r : MultiPhase.t)
  : float * float * float * float * float :=
  (MultiPhase.velocity r, MultiPhase.effectiveViscosity r,
   MultiPhase.reynoldsNumber r, MultiPhase.frictionFactor r,
   MultiPhase.pressureDrop r).

(** Geometries and materials that differ in nothing but roughness and
    the thermal properties. *)
Definition rough_geometry : Geometry :=
  {| coilRadius := None; turns := None; pitch := None;
     pipeRadius := None; pipeLength := None; roughness := Some 0.05 |}.

Definition thermal_properties : MaterialProperties :=
  {| viscosity := Some 7.0; density := None; specificHeat := Some 1.0;
     thermalConductivity := Some 2.0; viscosityTemperatureRelation := None |}.

(** * Facts about binary64 arithmetic

    Signs and special values of products and quotients, read off the
    specification of the primitive operations. *)

Module FloatFacts.

Lemma SFcompare_refl s : sf_nan s = false -> SFcompare s s = Some Eq.
Proof.
  destruct s as [[] | [] | | [] m e]; simpl; try reflexivity; try discriminate;
    intros _; rewrite Z.compare_refl, Pos.compare_cont_refl; reflexivity.
Qed.

Lemma SFcompare_swap x y :
  SFcompare y x = option_map CompOpp (SFcompare x y).
Proof.
  destruct x as [[] | [] | | [] mx ex], y as [[] | [] | | [] my ey];
    simpl; try reflexivity;
    rewrite (Z.compare_antisym ex ey);
    destruct (ex ?= ey)%Z; simpl; try reflexivity;
    rewrite (Pos.compare_cont_antisym mx my Eq); simpl;
    try rewrite CompOpp_involutive; reflexivity.
Qed.

Lemma is_nan_spec x : is_nan x = sf_nan (Prim2SF x).
Proof.
  unfold is_nan. rewrite FloatAxioms.eqb_spec. unfold SFeqb.
  destruct (sf_nan (Prim2SF x)) eqn:E.
  - destruct (Prim2SF x); try discriminate. reflexivity.
  - rewrite (SFcompare_refl _ E). reflexivity.
Qed.

Lemma is_zero_spec x : is_zero x = sf_zero (Prim2SF x).
Proof.
  unfold is_zero. rewrite FloatAxioms.eqb_spec.
  change (Prim2SF zero) with (S754_zero false).
  destruct (Prim2SF x) as [[] | [] | | [] m e]; reflexivity.
Qed.

Lemma ltb_zero_spec x : (x <? 0) = negb (sf_not_neg (Prim2SF x)).
Proof.
  rewrite FloatAxioms.ltb_spec. change (Prim2SF 0) with (S754_zero false).
  destruct (Prim2SF x) as [[] | [] | | [] m e]; reflexivity.
Qed.

Lemma zero_ltb_spec x : (0 <? x) = sf_pos (Prim2SF x).
Proof.
  rewrite FloatAxioms.ltb_spec. change (Prim2SF 0) with (S754_zero false).
  destruct (Prim2SF x) as [[] | [] | | [] m e]; reflexivity.
Qed.

Lemma zero_leb_spec x :
  (0 <=? x) = sf_not_neg (Prim2SF x) && negb (sf_nan (Prim2SF x)).
Proof.
  rewrite FloatAxioms.leb_spec. change (Prim2SF 0) with (S754_zero false).
  destruct (Prim2SF x) as [[] | [] | | [] m e]; reflexivity.
Qed.

(** Rounding keeps the sign it is given. *)
Lemma binary_round_aux_sign s m e l :
  match binary_round_aux prec emax s m e l with
  | S754_zero b | S754_infinity b | S754_finite b _ _ => b = s
  | S754_nan => True
  end.
Proof.
  unfold binary_round_aux.
  destruct (shr_fexp prec emax m e l) as [mrs e'].
  destruct (shr_fexp prec emax _ e' loc_Exact) as [mrs' e''].
  destruct (shr_m mrs'); [reflexivity | | exact I].
  destruct (e'' <=? emax - prec)%Z; reflexivity.
Qed.

Lemma SFmul_not_neg a b :
  sf_not_neg a = true -> sf_not_neg b = true ->
  sf_not_neg (SF64mul a b) = true.
Proof.
  intros Ha Hb.
  destruct a as [[] | [] | | [] ma ea], b as [[] | [] | | [] mb eb];
    simpl in *; try reflexivity; try discriminate.
  pose proof (binary_round_aux_sign false (Zpos (ma * mb)) (ea + eb) loc_Exact)
    as S.
  destruct (binary_round_aux _ _ _ _ _ _); simpl; subst; reflexivity.
Qed.

Lemma SFdiv_not_neg a b :
  sf_not_neg a = true -> sf_not_neg b = true -> sf_zero b = false ->
  sf_not_neg (SF64div a b) = true.
Proof.
  intros Ha Hb Hz.
  destruct a as [[] | [] | | [] ma ea], b as [[] | [] | | [] mb eb];
    simpl in *; try reflexivity; try discriminate.
  destruct (SFdiv_core_binary prec emax (Zpos ma) ea (Zpos mb) eb)
    as [[mz ez] lz].
  pose proof (binary_round_aux_sign false mz ez lz) as S.
  destruct (binary_round_aux _ _ _ _ _ _); simpl; subst; reflexivity.
Qed.

(** A positive product with a factor that is not negative has a positive
    other factor. *)
Lemma SFmul_pos_inv a b :
  sf_not_neg a = true -> sf_pos (SF64mul a b) = true -> sf_pos b = true.
Proof.
  intros Ha Hp.
  destruct a as [[] | [] | | [] ma ea], b as [[] | [] | | [] mb eb];
    simpl in *; try reflexivity; try discriminate.
  pose proof (binary_round_aux_sign true (Zpos (ma * mb)) (ea + eb) loc_Exact)
    as S.
  destruct (binary_round_aux _ _ _ _ _ _); simpl in *; subst; discriminate.
Qed.

Lemma shr_1_nonneg mrs : (0 <= shr_m mrs)%Z -> (0 <= shr_m (shr_1 mrs))%Z.
Proof.
  destruct mrs as [m r t]. cbn [shr_m].
  destruct m as [| [p | p |] | [p | p |]]; cbn; lia.
Qed.

Lemma iter_shr_1_nonneg p : forall mrs,
  (0 <= shr_m mrs)%Z -> (0 <= shr_m (@SpecFloat.iter_pos shr_record shr_1 p mrs))%Z.
Proof.
  induction p as [p IH | p IH |]; intros mrs H; cbn [SpecFloat.iter_pos].
  - apply IH, IH, shr_1_nonneg, H.
  - apply IH, IH, H.
  - apply shr_1_nonneg, H.
Qed.

Lemma shr_fexp_nonneg m e l :
  (0 <= m)%Z -> (0 <= shr_m (fst (shr_fexp prec emax m e l)))%Z.
Proof.
  intros H. unfold shr_fexp, shr.
  assert (H0 : (0 <= shr_m (shr_record_of_loc m l))%Z)
    by (destruct l as [| []]; exact H).
  destruct (fexp prec emax (Zdigits2 m + e) - e)%Z; cbn [fst];
    [exact H0 | apply iter_shr_1_nonneg, H0 | exact H0].
Qed.

Lemma round_nearest_even_nonneg m l :
  (0 <= m)%Z -> (0 <= round_nearest_even m l)%Z.
Proof.
  intros H. destruct l as [| []]; cbn; try lia.
  destruct (Z.even m); lia.
Qed.

(** Rounding a mantissa that is not negative never gives NaN. *)
Lemma binary_round_aux_not_nan s m e l :
  (0 <= m)%Z -> sf_nan (binary_round_aux prec emax s m e l) = false.
Proof.
  intros H. unfold binary_round_aux.
  pose proof (shr_fexp_nonneg m e l H) as H1.
  destruct (shr_fexp prec emax m e l) as [mrs e']. cbn [fst] in H1.
  pose proof (shr_fexp_nonneg _ e' loc_Exact
                (round_nearest_even_nonneg _ (loc_of_shr_record mrs) H1)) as H2.
  destruct (shr_fexp prec emax _ e' loc_Exact) as [mrs' e'']. cbn [fst] in H2.
  destruct (shr_m mrs'); [reflexivity | | lia].
  destruct (e'' <=? emax - prec)%Z; reflexivity.
Qed.

(** A finite number over a positive one is a number. *)
Lemma SFdiv_not_nan a b :
  sf_nan a = false -> sf_inf_nan a = false -> sf_pos b = true ->
  sf_nan (SF64div a b) = false.
Proof.
  intros Ha Hi Hb.
  destruct a as [[] | [] | | sa ma ea], b as [[] | [] | | [] mb eb];
    simpl in *; try reflexivity; try discriminate.
  unfold SFdiv_core_binary.
  set (m' := match (ea - eb - _)%Z with Z.pos _ => _ | Z0 => _ | Z.neg _ => _ end).
  assert (Hm : (0 <= m')%Z).
  { subst m'. destruct (ea - eb - _)%Z; try lia.
    apply Z.shiftl_nonneg. lia. }
  pose proof (Z.div_pos m' (Zpos mb) Hm ltac:(lia)) as Hq.
  unfold Z.div in Hq.
  destruct (Z.div_eucl m' (Z.pos mb)) as [q r]. cbn [fst] in Hq.
  apply binary_round_aux_not_nan, Hq.
Qed.
Lemma is_finite_spec x :
  is_finite x = true ->
  sf_nan (Prim2SF x) = false /\ sf_inf_nan (Prim2SF x) = false.
Proof.
  unfold is_finite, is_infinity.
  rewrite is_nan_spec, FloatAxioms.eqb_spec, abs_spec.
  change (Prim2SF infinity) with (S754_infinity false).
  destruct (Prim2SF x) as [[] | [] | | [] m e]; cbn; try discriminate;
    split; reflexivity.
Qed.

End FloatFacts.

(** * Proof support *)

(** Walks a hypothesis [c1 ;; ... = Ok r] through its successful steps. *)
Ltac ok_step H :=
  lazymatch type of H with
  | bind ?c _ = Ok _ =>
      let E := fresh "E" in
      destruct c eqn:E; [cbn [bind] in H | discriminate H]
  end.

Ltac ok_steps H := cbv zeta in H; repeat ok_step H.

Lemma py_div_ok x y q : py_div x y = Ok q -> is_zero y = false /\ q = x / y.
Proof.
  unfold py_div. destruct (is_zero y); [discriminate |].
  intros [= <-]. split; reflexivity.
Qed.

Lemma py_sqr_ok x q : py_sqr x = Ok q -> q = x * x.
Proof.
  unfold py_sqr. cbv zeta.
  destruct (is_infinity (x * x) && negb (is_infinity x)); [discriminate |].
  intros [= <-]. reflexivity.
Qed.

(** Runs two computations over the same steps side by side. *)
Lemma py_pow_unfold (M : Libm) x y :
  py_pow x y
  = if is_nan x then Ok x
    else if is_infinity x then Ok infinity
    else if is_zero x then Ok 0
    else if x <? 0 then n <- complex_pow x y ;; as_float n
    else if x =? 1 then Ok 1
    else if is_infinity (libm_pow x y) then Raise OverflowError
    else Ok (libm_pow x y).
Proof.
  unfold py_pow, float_pow. cbv zeta.
  destruct (is_nan x); [reflexivity |].
  destruct (is_infinity x); [reflexivity |].
  destruct (is_zero x); [reflexivity |].
  destruct (x <? 0); [reflexivity |].
  destruct (x =? 1); [reflexivity |].
  destruct (is_infinity (libm_pow x y)); reflexivity.
Qed.

(** A power of a negative base is no float. *)
Lemma complex_pow_no_float (M : Libm) x y p :
  (n <- complex_pow x y ;; as_float n) <> Ok p.
Proof.
  unfold complex_pow. cbv zeta.
  destruct (_ || _); cbn; discriminate.
Qed.

Lemma float_pow_real (M : Libm) x y n :
  float_pow x y = Ok n ->
  match n with
  | Real p => py_pow x y = Ok p
  | Complex => (x <? 0) = true
  end.
Proof.
  intros H. unfold py_pow. rewrite H. destruct n as [p |]; [reflexivity |].
  revert H. unfold float_pow. cbv zeta.
  destruct (is_nan x); [discriminate |].
  destruct (is_infinity x); [discriminate |].
  destruct (is_zero x); [discriminate |].
  destruct (x <? 0); [reflexivity |].
  destruct (x =? 1); [discriminate |].
  destruct (is_infinity (libm_pow x y)); discriminate.
Qed.

Ltac same_steps :=
  cbv zeta;
  repeat match goal with
         | |- context [bind ?c _] => destruct c; cbn [bind]
         end;
  try discriminate.

(** Products and quotients of numbers that are not below zero. *)

Module Sign.
Import FloatFacts.

Lemma mul x y :
  not_below_zero x -> not_below_zero y -> not_below_zero (x * y).
Proof.
  unfold not_below_zero. rewrite !ltb_zero_spec, FloatAxioms.mul_spec.
  intros Hx Hy. apply negb_false_iff in Hx, Hy.
  rewrite (SFmul_not_neg _ _ Hx Hy). reflexivity.
Qed.

Lemma div x y :
  not_below_zero x -> not_below_zero y -> is_zero y = false ->
  not_below_zero (x / y).
Proof.
  unfold not_below_zero.
  rewrite !ltb_zero_spec, FloatAxioms.div_spec, is_zero_spec.
  intros Hx Hy Hz. apply negb_false_iff in Hx, Hy.
  rewrite (SFdiv_not_neg _ _ Hx Hy Hz). reflexivity.
Qed.

Lemma of_leb x : (0 <=? x) = true -> not_below_zero x.
Proof.
  unfold not_below_zero. rewrite zero_leb_spec, ltb_zero_spec.
  intros H. apply andb_true_iff in H as [-> _]. reflexivity.
Qed.

Lemma of_pos x : (0 <? x) = true -> not_below_zero x /\ is_zero x = false.
Proof.
  unfold not_below_zero. rewrite zero_ltb_spec, ltb_zero_spec, is_zero_spec.
  destruct (Prim2SF x) as [[] | [] | | [] m e]; try discriminate;
    split; reflexivity.
Qed.

Lemma to_leb x : not_below_zero x -> is_nan x = false -> (0 <=? x) = true.
Proof.
  unfold not_below_zero. rewrite zero_leb_spec, ltb_zero_spec, is_nan_spec.
  intros H1 H2. apply negb_false_iff in H1. rewrite H1, H2. reflexivity.
Qed.

Lemma pos_factor x y :
  not_below_zero x -> (0 <? x * y) = true -> (0 <? y) = true.
Proof.
  unfold not_below_zero.
  rewrite !zero_ltb_spec, ltb_zero_spec, FloatAxioms.mul_spec.
  intros Hx. apply negb_false_iff in Hx. apply SFmul_pos_inv. exact Hx.
Qed.

Lemma leb_of_not_ltb x y :
  (y <? x) = false -> is_nan x = false -> is_nan y = false ->
  (x <=? y) = true.
Proof.
  rewrite FloatAxioms.ltb_spec, FloatAxioms.leb_spec, !is_nan_spec.
  unfold SFltb, SFleb. rewrite (SFcompare_swap (Prim2SF x) (Prim2SF y)).
  destruct (Prim2SF x) as [[] | [] | | [] mx ex],
           (Prim2SF y) as [[] | [] | | [] my ey];
    simpl; try discriminate; try reflexivity;
    destruct (ex ?= ey)%Z; simpl; try discriminate; try reflexivity;
    destruct (Pos.compare_cont Eq mx my); simpl;
    try discriminate; reflexivity.
Qed.

Lemma not_pos_of_leb x : (x <=? 0) = true -> (0 <? x) = false.
Proof.
  rewrite FloatAxioms.leb_spec, zero_ltb_spec.
  change (Prim2SF 0) with (S754_zero false).
  destruct (Prim2SF x) as [[] | [] | | [] m e]; try discriminate; reflexivity.
Qed.

Lemma div_is_number x y :
  is_finite x = true -> (0 <? y) = true -> is_nan (x / y) = false.
Proof.
  rewrite zero_ltb_spec, is_nan_spec, FloatAxioms.div_spec.
  intros Hx Hy. destruct (is_finite_spec x Hx) as [H1 H2].
  apply SFdiv_not_nan; assumption.
Qed.

Lemma py_pow_result (M : Libm) x y p :
  py_pow x y = Ok p -> not_below_zero p.
Proof.
  rewrite py_pow_unfold. unfold not_below_zero.
  destruct (is_nan x) eqn:Hn.
  { intros [= <-]. rewrite ltb_zero_spec.
    rewrite is_nan_spec in Hn. destruct (Prim2SF x); try discriminate.
    reflexivity. }
  destruct (is_infinity x); [intros [= <-]; reflexivity |].
  destruct (is_zero x); [intros [= <-]; reflexivity |].
  destruct (x <? 0) eqn:Hx;
    [intros H; destruct (complex_pow_no_float M x y p H) |].
  destruct (x =? 1); [intros [= <-]; reflexivity |].
  destruct (is_infinity (libm_pow x y)); [discriminate |].
  intros [= <-]. apply libm_pow_sign. exact Hx.
Qed.

End Sign.

Lemma get_not_below_zero o d :
  nonneg_opt o = true -> (0 <=? d) = true -> not_below_zero (get o d).
Proof.
  destruct o; simpl; intros H1 H2; apply Sign.of_leb; assumption.
Qed.

(** What a thermal-coil computation that returns has gone through: no zero
    divisor, two real powers, and the fields as the formulas give them. *)
Lemma heat_transfer_ok (M : Libm) B tank inlet flow g m r :
  compute_heat_transfer B tank inlet flow g m = Ok r ->
  exists p1 p2,
    is_zero (get (viscosity m) 0.01) = false
    /\ is_zero (get (thermalConductivity m) 0.14) = false
    /\ is_zero (get (pipeRadius g) 0.05 * 2) = false
    /\ py_pow (get (density m) 850.0 * flow * get (pipeRadius g) 0.05 * 2
               / get (viscosity m) 0.01) 0.8 = Ok p1
    /\ py_pow (get (viscosity m) 0.01 * get (specificHeat m) 2100.0
               / get (thermalConductivity m) 0.14) 0.4 = Ok p2
    /\ HeatTransfer.reynoldsNumber r
       = get (density m) 850.0 * flow * get (pipeRadius g) 0.05 * 2
         / get (viscosity m) 0.01
    /\ HeatTransfer.nusseltNumber r = 0.023 * p1 * p2
    /\ HeatTransfer.surfaceArea r
       = 2 * pi * get (coilRadius g) 0.5 * get (turns g) 3
         * get (pitch g) 0.1
    /\ HeatTransfer.heatTransferRate r
       = 0.023 * p1 * p2 * get (thermalConductivity m) 0.14
         / (get (pipeRadius g) 0.05 * 2)
         * (2 * pi * get (coilRadius g) 0.5 * get (turns g) 3
            * get (pitch g) 0.1)
         * (inlet - tank)
    /\ HeatTransfer.efficiency r
       = if 0 <? flow * get (density m) 850.0 * get (specificHeat m) 2100.0
                 * (inlet - tank)
         then py_min (HeatTransfer.heatTransferRate r
                      / (flow * get (density m) 850.0
                         * get (specificHeat m) 2100.0 * (inlet - tank)))
                     1.0
         else 0.0.
Proof.
  unfold compute_heat_transfer. cbv zeta. intros H.
  destruct (py_div _ (get (viscosity m) 0.01)) as [re |] eqn:Ere;
    [cbn [bind] in H | discriminate].
  destruct (py_div _ (get (thermalConductivity m) 0.14)) as [pr |] eqn:Epr;
    [cbn [bind] in H | discriminate].
  apply py_div_ok in Ere as [Hmu ->]. apply py_div_ok in Epr as [Hk ->].
  destruct (float_pow _ 0.8) as [n1 |] eqn:E1;
    [cbn [bind] in H | discriminate].
  destruct (float_pow _ 0.4) as [n2 |] eqn:E2;
    [cbn [bind] in H | discriminate].
  apply float_pow_real in E1, E2.
  unfold over in H.
  destruct (is_zero (get (pipeRadius g) 0.05 * 2)) eqn:Hr;
    [discriminate | cbn [bind] in H].
  destruct n1 as [p1 |], n2 as [p2 |]; cbn [scale times times_float] in H;
    try (exfalso;
         repeat match type of H with
                | context [if ?c then _ else _] => destruct c
                end;
         cbn in H; discriminate).
  exists p1, p2.
  destruct (0 <? flow * get (density m) 850.0 * get (specificHeat m) 2100.0
                 * (inlet - tank)) eqn:Hmax.
  - destruct (Sign.of_pos _ Hmax) as [_ Hz]. rewrite Hz in H.
    cbn in H. injection H as <-.
    repeat split; try assumption; reflexivity.
  - cbn in H. injection H as <-.
    repeat split; try assumption; reflexivity.
Qed.

(** Zeros, infinities and NaN through products and quotients. *)

Module Special.
Import FloatFacts.

Lemma of_zero x : is_zero x = true -> zero_or_nan x.
Proof.
  unfold zero_or_nan. rewrite is_zero_spec.
  destruct (Prim2SF x); try discriminate. reflexivity.
Qed.

Lemma mul_r x y : zero_or_nan y -> zero_or_nan (x * y).
Proof.
  unfold zero_or_nan. rewrite FloatAxioms.mul_spec.
  destruct (Prim2SF x) as [[] | [] | | [] mx ex],
           (Prim2SF y) as [[] | [] | | [] my ey];
    simpl; try discriminate; reflexivity.
Qed.

Lemma mul_l x y : zero_or_nan x -> zero_or_nan (x * y).
Proof.
  unfold zero_or_nan. rewrite FloatAxioms.mul_spec.
  destruct (Prim2SF x) as [[] | [] | | [] mx ex],
           (Prim2SF y) as [[] | [] | | [] my ey];
    simpl; try discriminate; reflexivity.
Qed.

Lemma div_l x y : zero_or_nan x -> zero_or_nan (x / y).
Proof.
  unfold zero_or_nan. rewrite FloatAxioms.div_spec.
  destruct (Prim2SF x) as [[] | [] | | [] mx ex],
           (Prim2SF y) as [[] | [] | | [] my ey];
    simpl; try discriminate; reflexivity.
Qed.

(** A zero is below every positive threshold and a NaN below none; a
    positive number over a zero is infinite. *)
Lemma zero_or_nan_cases x :
  zero_or_nan x ->
  (is_zero x = true /\ is_nan x = false) \/ (is_zero x = false /\ is_nan x = true).
Proof.
  unfold zero_or_nan. rewrite is_zero_spec, is_nan_spec.
  destruct (Prim2SF x); try discriminate; [left | right]; split; reflexivity.
Qed.

Lemma ltb_zero_l x t : is_zero x = true -> (0 <? t) = true -> (x <? t) = true.
Proof.
  rewrite is_zero_spec, zero_ltb_spec, FloatAxioms.ltb_spec.
  destruct (Prim2SF x) as [[] | [] | | [] mx ex],
           (Prim2SF t) as [[] | [] | | [] mt et];
    simpl; try discriminate; reflexivity.
Qed.

Lemma ltb_nan_l x t : is_nan x = true -> (x <? t) = false.
Proof.
  rewrite is_nan_spec, FloatAxioms.ltb_spec.
  destruct (Prim2SF x); try discriminate. reflexivity.
Qed.

Lemma div_by_zero x y :
  (0 <? x) = true -> is_zero y = true -> inf_or_nan (x / y).
Proof.
  unfold inf_or_nan.
  rewrite zero_ltb_spec, is_zero_spec, FloatAxioms.div_spec.
  destruct (Prim2SF x) as [[] | [] | | [] mx ex],
           (Prim2SF y) as [[] | [] | | [] my ey];
    simpl; try discriminate; reflexivity.
Qed.

Lemma div_by_nan x y : is_nan y = true -> inf_or_nan (x / y).
Proof.
  unfold inf_or_nan. rewrite is_nan_spec, FloatAxioms.div_spec.
  destruct (Prim2SF x) as [[] | [] | | [] mx ex],
           (Prim2SF y) as [[] | [] | | [] my ey];
    simpl; try discriminate; reflexivity.
Qed.

Lemma inf_mul x y : inf_or_nan x -> inf_or_nan (x * y).
Proof.
  unfold inf_or_nan. rewrite FloatAxioms.mul_spec.
  destruct (Prim2SF x) as [[] | [] | | [] mx ex],
           (Prim2SF y) as [[] | [] | | [] my ey];
    simpl; try discriminate; reflexivity.
Qed.

Lemma inf_mul_zero x y : inf_or_nan x -> zero_or_nan y -> is_nan (x * y) = true.
Proof.
  unfold inf_or_nan, zero_or_nan. rewrite is_nan_spec, FloatAxioms.mul_spec.
  destruct (Prim2SF x) as [[] | [] | | [] mx ex],
           (Prim2SF y) as [[] | [] | | [] my ey];
    simpl; try discriminate; reflexivity.
Qed.

Lemma nan_eq x : is_nan x = true -> x = nan.
Proof.
  rewrite is_nan_spec. intros H. apply Prim2SF_inj.
  destruct (Prim2SF x); try discriminate. reflexivity.
Qed.

Lemma nan_div x y : is_nan x = true -> is_nan (x / y) = true.
Proof.
  rewrite !is_nan_spec, FloatAxioms.div_spec.
  destruct (Prim2SF x); try discriminate. reflexivity.
Qed.

Lemma nan_not_leb x : is_nan x = true -> (0 <=? x) = false.
Proof.
  rewrite is_nan_spec, zero_leb_spec. intros ->. apply andb_false_r.
Qed.

End Special.

(** * The protocol loop *)

(** An exception out of the routed simulation reaches the handler of
    line 620, which stops at the unbound name [traceback]. *)
Lemma handle_exception_escapes B request e :
  handle_exception B request e = Escaped (NameError "traceback").
Proof.
  unfold handle_exception, lookup_global, bound. cbn.
  destruct (modulus_available B); reflexivity.
Qed.

(** A line that holds a JSON value other than an object fails at
    [request.get] and goes the same way; so does a line on which
    [json.loads] raises anything but a [JSONDecodeError]. *)
Lemma not_an_object_escapes (M : Libm) B n request rest :
  main_loop B n request (NotAnObject :: rest)
  = ([], Fatal (NameError "traceback")).
Proof.
  cbn [main_loop serve]. rewrite handle_exception_escapes. reflexivity.
Qed.

Lemma rejected_escapes (M : Libm) B n request e rest :
  main_loop B n request (Rejected e :: rest)
  = ([], Fatal (NameError "traceback")).
Proof.
  cbn [main_loop serve]. rewrite handle_exception_escapes. reflexivity.
Qed.

(** Lines with a [JSONDecodeError] are answered one by one and the loop
    goes on, with [request] as it was. *)
Lemma malformed_prefix (M : Libm) B request msgs : forall n rest,
  main_loop B n request (map Malformed msgs ++ rest)
  = (map invalid_json msgs
       ++ fst (main_loop B (List.length msgs + n) request rest),
     snd (main_loop B (List.length msgs + n) request rest)).
Proof.
  induction msgs as [| msg msgs IH]; intros n rest.
  - cbn. destruct (main_loop B n request rest). reflexivity.
  - cbn [map app main_loop serve assign]. rewrite (IH (S n) rest).
    cbn [List.length]. rewrite Nat.add_succ_r. reflexivity.
Qed.

Lemma route_unknown_type (M : Libm) B n id type p :
  String.eqb type "thermal_coil" = false ->
  String.eqb type "fluid_dynamics" = false ->
  String.eqb type "multi_phase" = false ->
  String.eqb type "external_flow_golf_ball" = false ->
  route B n (request id type p)
  = Raise (ValueError ("Unknown simulation type: " ++ type)).
Proof.
  intros H1 H2 H3 H4. unfold route. cbn [get simulationType request].
  rewrite H1, H2, H3, H4. reflexivity.
Qed.

Lemma route_zero_viscosity (M : Libm) B n id :
  route B n (request id "thermal_coil" (Some zero_viscosity_parameters))
  = Raise ZeroDivisionError.
Proof.
  unfold route. cbn [get simulationType parameters request].
  cbn [String.eqb Ascii.eqb Bool.eqb].
  unfold simulate_thermal_coil. destruct (clock B n). vm_compute. reflexivity.
Qed.

(** * Trajectories *)

Lemma range_int_length cap h steps :
  range (min_cap cap (PyInt h)) = Ok steps ->
  List.length steps = Z.to_nat (Z.min cap h).
Proof.
  unfold min_cap. destruct (Z.ltb_spec h cap); cbn; intros [= <-];
    rewrite length_seq; f_equal; lia.
Qed.

Lemma range_float_length cap x steps :
  range (min_cap cap (PyFloat x)) = Ok steps ->
  (x <? Z2float cap) = false /\ List.length steps = Z.to_nat cap.
Proof.
  unfold min_cap. destruct (x <? Z2float cap); cbn; [discriminate |].
  intros [= <-]. rewrite length_seq. split; reflexivity.
Qed.

Lemma steps_trajectory_length (M : Libm) cap h steps :
  (0 < cap)%Z ->
  range (min_cap cap (floor_div_60 (PyInt h))) = Ok steps ->
  trajectory_length cap h (List.length steps).
Proof.
  intros Hcap H. cbn [floor_div_60] in H. apply range_int_length in H.
  unfold trajectory_length. rewrite H.
  assert (Hdiv : (0 <= h -> 0 <= h / 60)%Z) by (intros; apply Z.div_pos; lia).
  assert (Hneg : (h <= 0 -> h / 60 <= 0)%Z)
    by (intros; apply Z.div_le_upper_bound; lia).
  repeat split; intros; lia.
Qed.

(** * Independence from the backend *)

Lemma heat_transfer_scalars (M : Libm) B1 B2 tank inlet flow g m r1 r2 :
  compute_heat_transfer B1 tank inlet flow g m = Ok r1 ->
  compute_heat_transfer B2 tank inlet flow g m = Ok r2 ->
  HeatTransfer.efficiency r1 = HeatTransfer.efficiency r2
  /\ HeatTransfer.heatTransferRate r1 = HeatTransfer.heatTransferRate r2
  /\ HeatTransfer.reynoldsNumber r1 = HeatTransfer.reynoldsNumber r2
  /\ HeatTransfer.nusseltNumber r1 = HeatTransfer.nusseltNumber r2
  /\ HeatTransfer.surfaceArea r1 = HeatTransfer.surfaceArea r2.
Proof.
  unfold compute_heat_transfer. same_steps.
  intros [= <-] [= <-]. repeat split.
Qed.

Lemma fluid_dynamics_scalars (M : Libm) B1 B2 t p q g m r1 r2 :
  compute_fluid_dynamics B1 t p q g m = Ok r1 ->
  compute_fluid_dynamics B2 t p q g m = Ok r2 ->
  FluidDynamics.reynoldsNumber r1 = FluidDynamics.reynoldsNumber r2
  /\ FluidDynamics.frictionFactor r1 = FluidDynamics.frictionFactor r2
  /\ FluidDynamics.pressureDrop r1 = FluidDynamics.pressureDrop r2
  /\ FluidDynamics.velocity r1 = FluidDynamics.velocity r2.
Proof.
  unfold compute_fluid_dynamics. same_steps.
  intros [= <-] [= <-]. repeat split.
Qed.

Lemma multi_phase_scalars (M : Libm) B1 B2 t p q g m r1 r2 :
  compute_multi_phase_flow B1 t p q g m = Ok r1 ->
  compute_multi_phase_flow B2 t p q g m = Ok r2 ->
  MultiPhase.reynoldsNumber r1 = MultiPhase.reynoldsNumber r2
  /\ MultiPhase.frictionFactor r1 = MultiPhase.frictionFactor r2
  /\ MultiPhase.pressureDrop r1 = MultiPhase.pressureDrop r2
  /\ MultiPhase.effectiveViscosity r1 = MultiPhase.effectiveViscosity r2
  /\ MultiPhase.velocity r1 = MultiPhase.velocity r2.
Proof.
  unfold compute_multi_phase_flow. same_steps.
  intros [= <-] [= <-]. repeat split.
Qed.

Lemma external_flow_drag B fluid_velocity fluid_viscosity fluid_density
    ball_radius r :
  compute_external_flow B fluid_velocity fluid_viscosity fluid_density
                        ball_radius = Ok r ->
  ExternalFlow.drag_coefficient r = 0.5.
Proof.
  unfold compute_external_flow. same_steps. intros [= <-]. reflexivity.
Qed.

Lemma route_scalars (M : Libm) B1 B2 n1 n2 req r1 r2 :
  route B1 n1 req = Ok r1 -> route B2 n2 req = Ok r2 ->
  analytical_scalars r1 = analytical_scalars r2.
Proof.
  unfold route, analytical_scalars.
  destruct (String.eqb _ "thermal_coil").
  { unfold simulate_thermal_coil.
    destruct (clock B1 n1), (clock B2 n2). cbv zeta.
    destruct (compute_heat_transfer B1 _ _ _ _ _) as [h1 |] eqn:E1;
      [| discriminate].
    destruct (compute_heat_transfer B2 _ _ _ _ _) as [h2 |] eqn:E2;
      [| intros _; discriminate].
    destruct (heat_transfer_scalars _ _ _ _ _ _ _ _ _ _ E1 E2)
      as (He & Hr & Hre & Hnu & Hs).
    cbn [bind]. rewrite He, Hr, Hre, Hnu, Hs. same_steps.
    intros [= <-] [= <-]. reflexivity. }
  destruct (String.eqb _ "fluid_dynamics").
  { unfold simulate_fluid_dynamics.
    destruct (clock B1 n1), (clock B2 n2). cbv zeta.
    destruct (compute_fluid_dynamics B1 _ _ _ _ _) as [h1 |] eqn:E1;
      [| discriminate].
    destruct (compute_fluid_dynamics B2 _ _ _ _ _) as [h2 |] eqn:E2;
      [| intros _; discriminate].
    destruct (fluid_dynamics_scalars _ _ _ _ _ _ _ _ _ _ E1 E2)
      as (Hre & Hf & Hp & Hv).
    cbn [bind]. rewrite Hre, Hf, Hp. same_steps.
    intros [= <-] [= <-]. reflexivity. }
  destruct (String.eqb _ "multi_phase").
  { unfold simulate_multi_phase.
    destruct (clock B1 n1), (clock B2 n2). cbv zeta.
    destruct (compute_multi_phase_flow B1 _ _ _ _ _) as [h1 |] eqn:E1;
      [| discriminate].
    destruct (compute_multi_phase_flow B2 _ _ _ _ _) as [h2 |] eqn:E2;
      [| intros _; discriminate].
    destruct (multi_phase_scalars _ _ _ _ _ _ _ _ _ _ E1 E2)
      as (Hre & Hf & Hp & Hmu & Hv).
    cbn [bind]. rewrite Hre, Hp, Hmu. same_steps.
    intros [= <-] [= <-]. reflexivity. }
  destruct (String.eqb _ "external_flow_golf_ball"); [| discriminate].
  unfold simulate_external_flow_golf_ball.
  destruct (clock B1 n1), (clock B2 n2). cbv zeta.
  destruct (compute_external_flow B1 _ _ _ _) as [h1 |] eqn:E1;
    [| discriminate].
  destruct (compute_external_flow B2 _ _ _ _) as [h2 |] eqn:E2;
    [| intros _; discriminate].
  apply external_flow_drag in E1, E2. cbn [bind].
  intros [= <-] [= <-]. rewrite E1, E2. reflexivity.
Qed.

(** * The claims *)

(** C1, on the code.  A request that parses and then fails does not get
    an [ErrorResult] and the loop does not go on: [traceback] was never
    imported, so the handler of [except Exception] raises [NameError]
    before it prints, and the exception leaves [main].  Nothing is written
    for the request, the lines after it are not read, and the process
    exits with status 1.  This holds for every exception of the routed
    simulation, among them the [ValueError] of an unknown
    [simulationType] and the [ZeroDivisionError] of an oil of viscosity
    zero. *)
Theorem C1_failed_request_ends_the_loop :
  forall (M : Libm) (B : Backend) (n : nat) (request : binding)
         (req : Request) (e : exn) (rest : list line),
    route B n req = Raise e ->
    serve B n request (Parsed req) = Escaped (NameError "traceback")
    /\ main_loop B n request (Parsed req :: rest)
       = ([], Fatal (NameError "traceback"))
    /\ (n = 0%nat ->
        main B (Parsed req :: rest)
        = ([INIT_COMPLETE], Fatal (NameError "traceback"))).
Proof.
  intros M B n request req e rest H.
  assert (S : forall request,
             serve B n request (Parsed req) = Escaped (NameError "traceback")).
  { intros v. unfold serve. rewrite H. apply handle_exception_escapes. }
  split; [apply S |]. split.
  - cbn [main_loop]. rewrite S. reflexivity.
  - intros ->. unfold main. cbn [main_loop]. rewrite S. reflexivity.
Qed.

Lemma C1_failed_request_witness :
  main (M := sample_libm) (sample_backend false)
       [ Parsed (request "r1" "bogus" None);
         Parsed (request "r2" "fluid_dynamics" None) ]
  = ([INIT_COMPLETE], Fatal (NameError "traceback")).
Proof.
  refine (proj2 (proj2
    (C1_failed_request_ends_the_loop
       sample_libm (sample_backend false) 0 Unassigned
       (request "r1" "bogus" None)
       (ValueError "Unknown simulation type: bogus")
       [Parsed (request "r2" "fluid_dynamics" None)] _)) eq_refl).
  apply route_unknown_type; reflexivity.
Defined.

(** C2.  Whenever the fluid-dynamics module returns, its friction factor
    is [64 / Re] when [Re < 2300] and [0.316 / Re ** 0.25] otherwise, for
    the Reynolds number [Re] it reports; a Reynolds number of exactly 2300
    takes the second formula.  The multi-phase module does the same with
    the threshold 2100. *)
Theorem C2_friction_factor_regimes :
  forall (M : Libm) (B : Backend) (temperature pressure flow_rate : float)
         (geometry : Geometry) (properties : MaterialProperties),
    (forall r,
        compute_fluid_dynamics B temperature pressure flow_rate
                               geometry properties = Ok r ->
        let Re := FluidDynamics.reynoldsNumber r in
        ((Re <? 2300) = true -> FluidDynamics.frictionFactor r = 64 / Re)
        /\ ((Re <? 2300) = false ->
            exists p, py_pow Re 0.25 = Ok p
                      /\ FluidDynamics.frictionFactor r = 0.316 / p)
        /\ (Re = 2300 ->
            FluidDynamics.frictionFactor r = 0.316 / libm_pow 2300 0.25))
    /\ (forall r,
        compute_multi_phase_flow B temperature pressure flow_rate
                                 geometry properties = Ok r ->
        let Re := MultiPhase.reynoldsNumber r in
        ((Re <? 2100) = true -> MultiPhase.frictionFactor r = 64 / Re)
        /\ ((Re <? 2100) = false ->
            MultiPhase.frictionFactor r = 0.316 / np_pow Re 0.25)
        /\ (Re = 2100 ->
            MultiPhase.frictionFactor r = 0.316 / libm_pow 2100 0.25)).
Proof.
  intros M B temperature pressure flow_rate geometry properties. split.
  - intros r H. unfold compute_fluid_dynamics in H. ok_steps H.
    injection H as <-. cbn.
    destruct (a1 <? 2300) eqn:Lam.
    + apply py_div_ok in E2 as [_ ->].
      repeat split; try discriminate.
      intros ->. vm_compute in Lam. discriminate Lam.
    + destruct (py_pow a1 0.25) as [p |] eqn:Ep; [cbn [bind] in E2 | discriminate].
      apply py_div_ok in E2 as [_ ->].
      repeat split; try discriminate.
      * intros _. exists p. split; reflexivity.
      * intros ->. revert Ep. unfold py_pow. cbn.
        destruct (abs (libm_pow 2300 0.25) =? infinity); [discriminate |].
        intros [= <-]. reflexivity.
  - intros r H. unfold compute_multi_phase_flow in H. ok_steps H.
    injection H as <-. cbn.
    repeat split.
    + intros ->. reflexivity.
    + intros ->. reflexivity.
    + intros ->. cbn. reflexivity.
Qed.

Lemma C2_friction_factor_witness :
  exists r,
    compute_fluid_dynamics (M := sample_libm) (sample_backend false)
                           120.0 2.0 0.001 no_geometry no_properties = Ok r
    /\ (FluidDynamics.reynoldsNumber r <? 2300) = true
    /\ FluidDynamics.frictionFactor r = 64 / FluidDynamics.reynoldsNumber r.
Proof.
  destruct (compute_fluid_dynamics (M := sample_libm) (sample_backend false)
                                   120.0 2.0 0.001 no_geometry no_properties)
    as [r |] eqn:E; [| vm_compute in E; discriminate E].
  exists r. split; [reflexivity |].
  assert (L : (FluidDynamics.reynoldsNumber r <? 2300) = true)
    by (vm_compute in E; injection E as <-; reflexivity).
  split; [exact L |].
  exact (proj1 (proj1 (C2_friction_factor_regimes
                         sample_libm (sample_backend false) 120.0 2.0 0.001
                         no_geometry no_properties) r E) L).
Defined.

(** The scenario of the specification: temperature 120, pressure 2, flow
    rate 1.0, pipe radius 0.05, pipe length 10, viscosity 0.01, density
    850.  The Reynolds number is 850 * (1 / (pi * 0.05 ** 2)) * 0.1 / 0.01,
    far above 2300, and the friction factor is the turbulent one. *)
Lemma scenario_r1 (M : Libm) (B : Backend) (r : FluidDynamics.t) :
  compute_fluid_dynamics
    B 120.0 2.0 1.0
    {| coilRadius := None; turns := None; pitch := None;
       pipeRadius := Some 0.05; pipeLength := Some 10.0; roughness := None |}
    {| viscosity := Some 0.01; density := Some 850.0; specificHeat := None;
       thermalConductivity := None; viscosityTemperatureRelation := None |}
  = Ok r ->
  FluidDynamics.reynoldsNumber r = 1082253.6130248883
  /\ FluidDynamics.frictionFactor r
     = 0.316 / libm_pow 1082253.6130248883 0.25.
Proof.
  intros H. unfold compute_fluid_dynamics in H.
  cbn [get pipeRadius pipeLength viscosity density] in H. cbv zeta in H.
  destruct (py_sqr 0.05) as [r2 |] eqn:E1; [| discriminate].
  vm_compute in E1. injection E1 as <-. cbn [bind] in H.
  destruct (py_div 1.0 _) as [v |] eqn:E2; [| discriminate].
  vm_compute in E2. injection E2 as <-. cbn [bind] in H.
  destruct (py_div _ 0.01) as [re |] eqn:E3; [| discriminate].
  vm_compute in E3. injection E3 as <-. cbn [bind] in H.
  change (1082253.6130248883 <? 2300) with false in H. cbv iota in H.
  destruct (py_pow 1082253.6130248883 0.25) as [p |] eqn:E4;
    [cbn [bind] in H | discriminate].
  assert (Hp : p = libm_pow 1082253.6130248883 0.25).
  { revert E4. rewrite py_pow_unfold.
    change (is_nan 1082253.6130248883) with false.
    change (is_infinity 1082253.6130248883) with false.
    change (is_zero 1082253.6130248883) with false.
    change (1082253.6130248883 <? 0) with false.
    change (1082253.6130248883 =? 1) with false.
    cbv iota zeta.
    destruct (is_infinity (libm_pow 1082253.6130248883 0.25));
      [discriminate | intros [= <-]; reflexivity]. }
  destruct (py_div 0.316 p) as [ff |] eqn:E5; [cbn [bind] in H | discriminate].
  apply py_div_ok in E5 as [_ ->].
  destruct (py_div 10.0 _) as [lr |]; [cbn [bind] in H | discriminate].
  destruct (py_sqr 127.32395447351627) as [v2 |];
    [cbn [bind] in H | discriminate].
  injection H as <-. cbn. rewrite Hp. split; reflexivity.
Qed.

(** C3, as amended.  Whenever the thermal-coil module returns, with
    [maxPossibleHeatTransfer = flowRate * density * specificHeat *
    (coilInletTemp - tankTemp)] and [q = heatTransferRate /
    maxPossibleHeatTransfer]: when that maximum is positive the efficiency
    is [min (q, 1.0)], that is 1.0 when [q] is above 1 and [q] when it is
    not; it is 0 when the maximum is not positive, in particular when it
    is [<= 0]; and for parameters that are all [>= 0] the efficiency is
    never below 0 and never above 1, and lies in [0, 1] whenever it is a
    number, which it is whenever the heat-transfer rate is finite. *)
Theorem C3_efficiency_clamped :
  forall (M : Libm) (B : Backend) (tank_temp coil_inlet_temp flow_rate : float)
         (g : Geometry) (m : MaterialProperties) (r : HeatTransfer.t),
    compute_heat_transfer B tank_temp coil_inlet_temp flow_rate g m = Ok r ->
    let max_possible_heat_transfer :=
      flow_rate * get (density m) 850.0 * get (specificHeat m) 2100.0
      * (coil_inlet_temp - tank_temp) in
    let q := HeatTransfer.heatTransferRate r / max_possible_heat_transfer in
    let eff := HeatTransfer.efficiency r in
    ((0 <? max_possible_heat_transfer) = true -> (1 <? q) = true -> eff = 1)
    /\ ((0 <? max_possible_heat_transfer) = true -> (1 <? q) = false ->
        eff = q)
    /\ ((0 <? max_possible_heat_transfer) = false -> eff = 0)
    /\ ((max_possible_heat_transfer <=? 0) = true -> eff = 0)
    /\ (valid_thermal_coil tank_temp coil_inlet_temp flow_rate g m = true ->
        ((eff <? 0) = false /\ (1 <? eff) = false)
        /\ (is_nan eff = false -> (0 <=? eff) = true /\ (eff <=? 1) = true)
        /\ (is_finite (HeatTransfer.heatTransferRate r) = true ->
            (0 <=? eff) = true /\ (eff <=? 1) = true)).
Proof.
  intros M B tank inlet flow g m r H maxp q eff.
  apply heat_transfer_ok in H
    as (p1 & p2 & Hmu & Hk & Hr & Ep1 & Ep2 & _ & _ & _ & Hrate & Heff).
  fold maxp in Heff. fold q in Heff. fold eff in Heff.
  assert (Hrange :
            forall e (number : Prop),
              (e <? 0) = false -> (1 <? e) = false ->
              (number -> is_nan e = false) ->
              ((e <? 0) = false /\ (1 <? e) = false)
              /\ (is_nan e = false -> (0 <=? e) = true /\ (e <=? 1) = true)
              /\ (number -> (0 <=? e) = true /\ (e <=? 1) = true)).
  { intros e number H0 H1 Hnum.
    assert (In01 : is_nan e = false -> (0 <=? e) = true /\ (e <=? 1) = true).
    { intros Hn. split.
      - apply Sign.to_leb; assumption.
      - apply Sign.leb_of_not_ltb; [assumption | assumption | reflexivity]. }
    split; [split; assumption |]. split; [exact In01 |].
    intros Hf. apply In01, Hnum, Hf. }
  rewrite Heff. clear Heff.
  destruct (0 <? maxp) eqn:Hpos.
  - unfold py_min.
    split; [intros _ Hq; rewrite Hq; reflexivity |].
    split; [intros _ Hq; rewrite Hq; reflexivity |].
    split; [discriminate |].
    split; [intros Hle; apply Sign.not_pos_of_leb in Hle; congruence |].
    intros Hvalid. unfold valid_thermal_coil in Hvalid.
    repeat (apply andb_true_iff in Hvalid as [Hvalid ?]).
    assert (Hq : not_below_zero q).
    { destruct (Sign.of_pos _ Hpos) as [Hm0 Hm1].
      apply Sign.div; [| assumption | assumption].
      rewrite Hrate.
      apply Sign.mul; [apply Sign.mul |].
      - apply Sign.div; [| | assumption].
        + apply Sign.mul; [apply Sign.mul; [apply Sign.mul |] |].
          * reflexivity.
          * eapply Sign.py_pow_result; eassumption.
          * eapply Sign.py_pow_result; eassumption.
          * apply get_not_below_zero; [assumption | reflexivity].
        + apply Sign.mul; [| reflexivity].
          apply get_not_below_zero; [assumption | reflexivity].
      - repeat apply Sign.mul; try reflexivity;
          apply get_not_below_zero; (assumption || reflexivity).
      - refine (proj1 (Sign.of_pos _ _)).
        apply (Sign.pos_factor
                 (flow * get (density m) 850.0 * get (specificHeat m) 2100.0)).
        + repeat apply Sign.mul; try (apply Sign.of_leb; assumption);
            apply get_not_below_zero; (assumption || reflexivity).
        + exact Hpos. }
    apply Hrange.
    + destruct (1.0 <? q); [reflexivity | exact Hq].
    + destruct (1.0 <? q) eqn:Hgt; [reflexivity | exact Hgt].
    + intros Hf. destruct (1.0 <? q); [reflexivity |].
      apply Sign.div_is_number; assumption.
  - split; [discriminate |]. split; [discriminate |].
    split; [reflexivity |]. split; [reflexivity |].
    intros _. apply (Hrange 0.0); reflexivity.
Qed.

(** C3, the claim as it was stated, fails: a flow rate and a density of
    1e308, both finite and above zero, make the heat-transfer rate and its
    maximum infinite, their quotient NaN, and [min (NaN, 1.0)] is NaN,
    which is not in [0, 1].  No power reaches the C library on this
    input, so the result is the same under every [Libm]. *)
Lemma overflowing_coil_efficiency (M : Libm) (B : Backend) :
  valid_thermal_coil 120.0 180.0 1e308 overflowing_coil dense_oil = true
  /\ exists r,
       compute_heat_transfer B 120.0 180.0 1e308 overflowing_coil dense_oil
       = Ok r
       /\ is_nan (HeatTransfer.efficiency r) = true
       /\ (0 <=? HeatTransfer.efficiency r) = false
       /\ (HeatTransfer.efficiency r <=? 1) = false.
Proof.
  split; [reflexivity |].
  eexists. split; [vm_compute; reflexivity |].
  repeat split.
Qed.

Lemma C3_overflow_counterexample :
  ~ (forall (M : Libm) (B : Backend)
            (tank_temp coil_inlet_temp flow_rate : float)
            (g : Geometry) (m : MaterialProperties) (r : HeatTransfer.t),
        valid_thermal_coil tank_temp coil_inlet_temp flow_rate g m = true ->
        compute_heat_transfer B tank_temp coil_inlet_temp flow_rate g m
        = Ok r ->
        (0 <=? HeatTransfer.efficiency r) = true
        /\ (HeatTransfer.efficiency r <=? 1) = true).
Proof.
  intros claim.
  destruct (overflowing_coil_efficiency sample_libm (sample_backend false))
    as (Hvalid & r & Hr & _ & Hlow & _).
  destruct (claim sample_libm (sample_backend false) 120.0 180.0 1e308
                  overflowing_coil dense_oil r Hvalid Hr) as [Hlow' _].
  congruence.
Qed.

Lemma C3_efficiency_witness :
  exists r,
    compute_heat_transfer
      (M := sample_libm) (sample_backend false) 120.0 180.0 1.0
      (get (geometry (unit_coil_parameters 180.0)) no_geometry)
      (get (materialProperties (unit_coil_parameters 180.0)) no_properties)
    = Ok r
    /\ (0 <=? HeatTransfer.efficiency r) = true
    /\ (HeatTransfer.efficiency r <=? 1) = true.
Proof.
  destruct (compute_heat_transfer
              (M := sample_libm) (sample_backend false) 120.0 180.0 1.0
              (get (geometry (unit_coil_parameters 180.0)) no_geometry)
              (get (materialProperties (unit_coil_parameters 180.0))
                   no_properties))
    as [r |] eqn:E; [| vm_compute in E; discriminate E].
  exists r. split; [reflexivity |].
  assert (F : is_finite (HeatTransfer.heatTransferRate r) = true)
    by (vm_compute in E; injection E as <-; reflexivity).
  exact (proj2 (proj2 (proj2 (proj2 (proj2 (proj2
    (C3_efficiency_clamped sample_libm (sample_backend false) 120.0 180.0 1.0
                           _ _ r E)))) eq_refl)) F).
Defined.

(** C4, as amended.  Whenever a simulation returns for a request whose
    time horizon is an integer [h] (3600, or 1800 for multi_phase, when
    the request gives none), its trajectory has
    [max (0, min (cap, h // 60))] samples, with cap 60 for thermal_coil
    and fluid_dynamics and 30 for multi_phase: that is [min (cap, h // 60)]
    when [h >= 0], and none when [h <= 0].  An external-flow request that
    returns has an empty trajectory. *)
Theorem C4_trajectory_length :
  forall (M : Libm) (B : Backend) (n : nat) (p : Parameters) (h : Z)
         (r : SimulationResult),
    (get (timeHorizon p) (PyInt 3600) = PyInt h ->
     simulate_thermal_coil B n p = Ok r ->
     trajectory_length 60 h (List.length (predictedStates r)))
    /\ (get (timeHorizon p) (PyInt 3600) = PyInt h ->
        simulate_fluid_dynamics B n p = Ok r ->
        trajectory_length 60 h (List.length (predictedStates r)))
    /\ (get (timeHorizon p) (PyInt 1800) = PyInt h ->
        simulate_multi_phase B n p = Ok r ->
        trajectory_length 30 h (List.length (predictedStates r)))
    /\ (simulate_external_flow_golf_ball B n p = Ok r ->
        predictedStates r = []).
Proof.
  intros M B n p h r. split; [| split; [| split]].
  - unfold simulate_thermal_coil. destruct (clock B n) as [t0 t1].
    cbv zeta. intros -> H.
    destruct (compute_heat_transfer _ _ _ _ _ _) as [ht |];
      [cbn [bind] in H | discriminate].
    destruct (range _) as [steps |] eqn:Es; [cbn [bind] in H | discriminate].
    destruct (mul_pynum _ _) as [j |]; [cbn [bind] in H | discriminate].
    destruct (py_div j _) as [e |]; [cbn [bind] in H | discriminate].
    injection H as <-. cbn [predictedStates]. rewrite length_map.
    apply (steps_trajectory_length M); [lia | exact Es].
  - unfold simulate_fluid_dynamics. destruct (clock B n) as [t0 t1].
    cbv zeta. intros -> H.
    destruct (compute_fluid_dynamics _ _ _ _ _ _) as [fr |];
      [cbn [bind] in H | discriminate].
    destruct (range _) as [steps |] eqn:Es; [cbn [bind] in H | discriminate].
    injection H as <-. cbn [predictedStates]. rewrite length_map.
    apply (steps_trajectory_length M); [lia | exact Es].
  - unfold simulate_multi_phase. destruct (clock B n) as [t0 t1].
    cbv zeta. intros -> H.
    destruct (compute_multi_phase_flow _ _ _ _ _ _) as [fr |];
      [cbn [bind] in H | discriminate].
    destruct (range _) as [steps |] eqn:Es; [cbn [bind] in H | discriminate].
    injection H as <-. cbn [predictedStates]. rewrite length_map.
    apply (steps_trajectory_length M); [lia | exact Es].
  - unfold simulate_external_flow_golf_ball. destruct (clock B n) as [t0 t1].
    cbv zeta. intros H.
    destruct (compute_external_flow _ _ _ _ _) as [er |];
      [cbn [bind] in H | discriminate].
    injection H as <-. reflexivity.
Qed.

(** C4, the claim as it was stated, fails: a fluid-dynamics request with
    [timeHorizon = -60] returns an empty trajectory, while
    [min (60, -60 // 60)] is [-1]. *)
Lemma C4_negative_horizon_counterexample :
  ~ (forall (M : Libm) (B : Backend) (n : nat) (p : Parameters) (h : Z)
            (r : SimulationResult),
        timeHorizon p = Some (PyInt h) ->
        simulate_fluid_dynamics B n p = Ok r ->
        Z.of_nat (List.length (predictedStates r)) = Z.min 60 (h / 60)).
Proof.
  intros claim.
  specialize (claim sample_libm (sample_backend false) 0%nat
                    (laminar_parameters (PyInt (-60))) (-60)%Z).
  cbv beta in claim.
  destruct (simulate_fluid_dynamics (sample_backend false) 0
                                    (laminar_parameters (PyInt (-60))))
    as [r |] eqn:E; [| vm_compute in E; discriminate E].
  specialize (claim r eq_refl eq_refl).
  vm_compute in E. injection E as <-. cbn in claim. discriminate claim.
Qed.

Lemma C4_trajectory_length_witness :
  exists r,
    simulate_fluid_dynamics (M := sample_libm) (sample_backend false) 0
                            (laminar_parameters (PyInt 150)) = Ok r
    /\ trajectory_length 60 150 (List.length (predictedStates r))
    /\ List.length (predictedStates r) = 2%nat.
Proof.
  destruct (simulate_fluid_dynamics (M := sample_libm) (sample_backend false)
                                    0 (laminar_parameters (PyInt 150)))
    as [r |] eqn:E; [| vm_compute in E; discriminate E].
  exists r. split; [reflexivity |]. split.
  - exact (proj1 (proj2
      (C4_trajectory_length sample_libm (sample_backend false) 0
                            (laminar_parameters (PyInt 150)) 150 r))
      eq_refl E).
  - vm_compute in E. injection E as <-. reflexivity.
Defined.

(** A float horizon: [3600.0] gives the 60 samples of the cap, [1800.0]
    reaches [range] as the float [30.0]. *)
Lemma float_horizon_examples :
  (exists r,
      simulate_fluid_dynamics (M := sample_libm) (sample_backend false) 0
                              (laminar_parameters (PyFloat 3600.0)) = Ok r
      /\ List.length (predictedStates r) = 60%nat)
  /\ simulate_fluid_dynamics (M := sample_libm) (sample_backend false) 0
                             (laminar_parameters (PyFloat 1800.0))
     = Raise TypeError.
Proof.
  split; [eexists; split |]; vm_compute; reflexivity.
Qed.

(** C5, on the code.  A line that does not parse as a structured record
    is answered with an [ErrorResult] under [unknown], and the loop goes
    on, only when [json.loads] raises [JSONDecodeError].  A line that
    holds a JSON value other than an object (a number, a string, a list,
    [null]), or on which [json.loads] raises another exception, goes to
    the handler of [except Exception], which raises [NameError] at
    [traceback]: nothing is written, the lines after it are not read, and
    the process exits with status 1.  With [traceback] at hand the handler
    would still write nothing for a value that is not an object or for a
    [request] not yet assigned: [request.get] raises inside it. *)
Theorem C5_unparsable_lines :
  forall (M : Libm) (B : Backend) (n : nat) (request : binding)
         (rest : list line),
    (forall msg,
        main_loop B n request (Malformed msg :: rest)
        = (ErrorResult ("Invalid JSON: " ++ msg) "unknown"
             :: fst (main_loop B (S n) request rest),
           snd (main_loop B (S n) request rest)))
    /\ (forall msgs,
          main_loop B n request (map Malformed msgs ++ rest)
          = (map invalid_json msgs
               ++ fst (main_loop B (List.length msgs + n) request rest),
             snd (main_loop B (List.length msgs + n) request rest)))
    /\ main_loop B n request (NotAnObject :: rest)
       = ([], Fatal (NameError "traceback"))
    /\ (forall e,
          main_loop B n request (Rejected e :: rest)
          = ([], Fatal (NameError "traceback")))
    /\ main B (NotAnObject :: rest)
       = ([INIT_COMPLETE], Fatal (NameError "traceback"))
    /\ (forall e o,
          handle_exception B NotADict e <> Written o
          /\ handle_exception B Unassigned e <> Written o).
Proof.
  intros M B n request rest. split; [| split; [| split; [| split; [| split]]]].
  - intros msg. cbn [main_loop serve assign].
    destruct (main_loop B (S n) request rest). reflexivity.
  - intros msgs. apply malformed_prefix.
  - apply not_an_object_escapes.
  - intros e. apply rejected_escapes.
  - unfold main. rewrite not_an_object_escapes. reflexivity.
  - intros e o. unfold handle_exception.
    destruct (lookup_global B "traceback"); split; discriminate.
Qed.

Lemma C5_unparsable_lines_witness :
  main (M := sample_libm) (sample_backend false)
       [ NotAnObject;
         Parsed (request "r2" "fluid_dynamics"
                         (Some (laminar_parameters (PyInt 120)))) ]
  = ([INIT_COMPLETE], Fatal (NameError "traceback")).
Proof.
  exact (proj1 (proj2 (proj2 (proj2 (proj2
    (C5_unparsable_lines
       sample_libm (sample_backend false) 0 Unassigned
       [Parsed (request "r2" "fluid_dynamics"
                        (Some (laminar_parameters (PyInt 120))))])))))).
Defined.

(** C6.  Whenever the multi-phase module returns, for the coefficients
    [a], [b], [c] of [viscosityTemperatureRelation] (1.5, -0.02 and 0.0001
    when the relation is absent) the effective viscosity is
    [a * exp (b * T + c * T ** 2)], and it is the viscosity under the
    reported Reynolds number, from which the friction factor and the
    pressure drop are made.  At [T = 150] with the default relation the
    argument of [exp] is exactly [-0.75], so the effective viscosity is
    [1.5 * exp (-0.75)]. *)
Theorem C6_effective_viscosity :
  forall (M : Libm) (B : Backend) (temperature pressure flow_rate : float)
         (g : Geometry) (m : MaterialProperties) (r : MultiPhase.t),
    compute_multi_phase_flow B temperature pressure flow_rate g m = Ok r ->
    let relation :=
      get (viscosityTemperatureRelation m)
          {| rel_a := Some 1.5; rel_b := Some (-0.02);
             rel_c := Some 0.0001 |} in
    (exists a b c,
        rel_a relation = Some a /\ rel_b relation = Some b
        /\ rel_c relation = Some c
        /\ MultiPhase.effectiveViscosity r
           = a * libm_exp (b * temperature + c * (temperature * temperature)))
    /\ MultiPhase.reynoldsNumber r
       = get (density m) 1000.0 * MultiPhase.velocity r
         * get (pipeRadius g) 0.1 * 2
         / MultiPhase.effectiveViscosity r
    /\ MultiPhase.frictionFactor r
       = (if MultiPhase.reynoldsNumber r <? 2100
          then 64 / MultiPhase.reynoldsNumber r
          else 0.316 / np_pow (MultiPhase.reynoldsNumber r) 0.25)
    /\ (temperature = 150.0 -> viscosityTemperatureRelation m = None ->
        MultiPhase.effectiveViscosity r = 1.5 * libm_exp (-0.75)).
Proof.
  intros M B temperature pressure flow_rate g m r H relation.
  unfold compute_multi_phase_flow in H. cbv zeta in H.
  fold default_viscosity_relation in relation.
  fold relation in H.
  destruct (rel_a relation) as [a |] eqn:Ea; [| discriminate].
  destruct (rel_b relation) as [b |] eqn:Eb; [| discriminate].
  destruct (rel_c relation) as [c |] eqn:Ec; [| discriminate].
  cbn [index bind] in H.
  destruct (py_sqr temperature) as [t2 |] eqn:Et2;
    [cbn [bind] in H | discriminate].
  destruct (py_sqr (get (pipeRadius g) 0.1)) as [r2 |];
    [cbn [bind] in H | discriminate].
  destruct (py_div flow_rate _) as [v |]; [cbn [bind] in H | discriminate].
  destruct (py_div (get (pipeLength g) 50.0) _) as [lr |];
    [cbn [bind] in H | discriminate].
  destruct (py_sqr v) as [v2 |]; [cbn [bind] in H | discriminate].
  injection H as <-. cbn.
  apply py_sqr_ok in Et2 as ->.
  split; [exists a, b, c; repeat split; reflexivity |].
  split; [reflexivity |]. split; [reflexivity |].
  intros -> Hrel. subst relation. rewrite Hrel in Ea, Eb, Ec.
  cbn in Ea, Eb, Ec.
  injection Ea as <-. injection Eb as <-. injection Ec as <-.
  reflexivity.
Qed.

Lemma C6_effective_viscosity_witness :
  exists r,
    compute_multi_phase_flow (M := sample_libm) (sample_backend false)
                             150.0 1.5 0.5 no_geometry no_properties = Ok r
    /\ MultiPhase.effectiveViscosity r = 1.5 * @libm_exp sample_libm (-0.75).
Proof.
  destruct (compute_multi_phase_flow (M := sample_libm) (sample_backend false)
                                     150.0 1.5 0.5 no_geometry no_properties)
    as [r |] eqn:E; [| vm_compute in E; discriminate E].
  exists r. split; [reflexivity |].
  exact (proj2 (proj2 (proj2
    (C6_effective_viscosity sample_libm (sample_backend false)
                            150.0 1.5 0.5 no_geometry no_properties r E)))
    eq_refl eq_refl).
Defined.

(** A relation that is present without one of its coefficients is an
    error, not a default. *)
Lemma viscosity_relation_missing_key (M : Libm) B temperature pressure
    flow_rate g m relation :
  viscosityTemperatureRelation m = Some relation ->
  rel_a relation = None ->
  compute_multi_phase_flow B temperature pressure flow_rate g m
  = Raise (KeyError "a").
Proof.
  intros Hm Ha. unfold compute_multi_phase_flow. cbv zeta.
  rewrite Hm. cbn [get]. rewrite Ha. reflexivity.
Qed.

(** C7.  In both the fluid-dynamics and the multi-phase module the
    pressure drop is [frictionFactor * (pipeLength / (2 * pipeRadius)) *
    density * velocity ** 2 / 2] with [velocity = flowRate / (pi *
    pipeRadius ** 2)].  It is not always [>= 0] on inputs that are: at a
    flow rate of zero the multi-phase module, whenever it returns, reports
    a NaN pressure drop ([64 / 0.0] is infinite for NumPy and is then
    multiplied by zero), and the fluid-dynamics module raises
    [ZeroDivisionError] at its default parameters. *)
Theorem C7_pressure_drop_zero_flow :
  forall (M : Libm) (B : Backend) (temperature pressure flow_rate : float)
         (g : Geometry) (m : MaterialProperties),
    (forall r,
        compute_fluid_dynamics B temperature pressure flow_rate g m = Ok r ->
        FluidDynamics.velocity r
        = flow_rate / (pi * (get (pipeRadius g) 0.05 * get (pipeRadius g) 0.05))
        /\ FluidDynamics.pressureDrop r
           = FluidDynamics.frictionFactor r
             * (get (pipeLength g) 10.0 / (get (pipeRadius g) 0.05 * 2))
             * (get (density m) 850.0
                * (FluidDynamics.velocity r * FluidDynamics.velocity r)) / 2)
    /\ (forall r,
        compute_multi_phase_flow B temperature pressure flow_rate g m = Ok r ->
        MultiPhase.velocity r
        = flow_rate / (pi * (get (pipeRadius g) 0.1 * get (pipeRadius g) 0.1))
        /\ MultiPhase.pressureDrop r
           = MultiPhase.frictionFactor r
             * (get (pipeLength g) 50.0 / (get (pipeRadius g) 0.1 * 2))
             * (get (density m) 1000.0
                * (MultiPhase.velocity r * MultiPhase.velocity r)) / 2
        /\ (is_zero flow_rate = true ->
            is_nan (MultiPhase.pressureDrop r) = true
            /\ (0 <=? MultiPhase.pressureDrop r) = false))
    /\ compute_fluid_dynamics B 120.0 2.0 0.0 no_geometry no_properties
       = Raise ZeroDivisionError.
Proof.
  intros M B temperature pressure flow_rate g m. split; [| split].
  - intros r H. unfold compute_fluid_dynamics in H. cbv zeta in H.
    destruct (py_sqr (get (pipeRadius g) 0.05)) as [r2 |] eqn:Er2;
      [cbn [bind] in H | discriminate].
    destruct (py_div flow_rate _) as [v |] eqn:Ev;
      [cbn [bind] in H | discriminate].
    destruct (py_div _ (get (viscosity m) 0.01)) as [re |] eqn:Ere;
      [cbn [bind] in H | discriminate].
    destruct (if re <? 2300 then _ else _) as [ff |] eqn:Eff;
      [cbn [bind] in H | discriminate].
    destruct (py_div (get (pipeLength g) 10.0) _) as [lr |] eqn:Elr;
      [cbn [bind] in H | discriminate].
    destruct (py_sqr v) as [v2 |] eqn:Ev2; [cbn [bind] in H | discriminate].
    injection H as <-. cbn.
    apply py_sqr_ok in Er2 as ->. apply py_sqr_ok in Ev2 as ->.
    apply py_div_ok in Ev as [_ ->]. apply py_div_ok in Elr as [_ ->].
    split; reflexivity.
  - intros r H. unfold compute_multi_phase_flow in H. cbv zeta in H.
    destruct (index (rel_a _) "a") as [a |]; [cbn [bind] in H | discriminate].
    destruct (index (rel_b _) "b") as [b |]; [cbn [bind] in H | discriminate].
    destruct (index (rel_c _) "c") as [c |]; [cbn [bind] in H | discriminate].
    destruct (py_sqr temperature) as [t2 |];
      [cbn [bind] in H | discriminate].
    destruct (py_sqr (get (pipeRadius g) 0.1)) as [r2 |] eqn:Er2;
      [cbn [bind] in H | discriminate].
    destruct (py_div flow_rate _) as [v |] eqn:Ev;
      [cbn [bind] in H | discriminate].
    destruct (py_div (get (pipeLength g) 50.0) _) as [lr |] eqn:Elr;
      [cbn [bind] in H | discriminate].
    destruct (py_sqr v) as [v2 |] eqn:Ev2; [cbn [bind] in H | discriminate].
    injection H as <-. cbn.
    apply py_sqr_ok in Er2 as ->. apply py_sqr_ok in Ev2 as ->.
    apply py_div_ok in Ev as [_ Hv]. apply py_div_ok in Elr as [_ ->].
    split; [exact Hv |]. split; [reflexivity |].
    intros Hq.
    assert (Zv : zero_or_nan v).
    { rewrite Hv. apply Special.div_l, Special.of_zero, Hq. }
    set (mu := a * np_exp (b * temperature + c * t2)).
    set (re := get (density m) 1000.0 * v * get (pipeRadius g) 0.1 * 2 / mu).
    assert (Zre : zero_or_nan re).
    { apply Special.div_l. do 2 apply Special.mul_l. apply Special.mul_r, Zv. }
    assert (Iff : inf_or_nan
                    (if re <? 2100 then 64 / re
                     else 0.316 / np_pow re 0.25)).
    { destruct (Special.zero_or_nan_cases _ Zre) as [[Hz Hn] | [Hz Hn]].
      - rewrite (Special.ltb_zero_l re 2100 Hz eq_refl).
        apply Special.div_by_zero; [reflexivity | exact Hz].
      - rewrite (Special.ltb_nan_l re 2100 Hn).
        apply Special.div_by_nan. unfold np_pow.
        rewrite (Special.nan_eq re Hn). apply libm_pow_nan. reflexivity. }
    assert (Hnan : is_nan
                     ((if re <? 2100 then 64 / re
                       else 0.316 / np_pow re 0.25)
                      * (get (pipeLength g) 50.0 / (get (pipeRadius g) 0.1 * 2))
                      * (get (density m) 1000.0 * (v * v)) / 2) = true).
    { apply Special.nan_div, Special.inf_mul_zero.
      - apply Special.inf_mul, Iff.
      - apply Special.mul_r, Special.mul_r, Zv. }
    split; [exact Hnan | apply Special.nan_not_leb, Hnan].
  - vm_compute. reflexivity.
Qed.

Lemma C7_pressure_drop_witness :
  exists r,
    compute_multi_phase_flow (M := sample_libm) (sample_backend false)
                             150.0 1.5 0.0 no_geometry no_properties = Ok r
    /\ MultiPhase.reynoldsNumber r = 0
    /\ MultiPhase.frictionFactor r = infinity
    /\ is_nan (MultiPhase.pressureDrop r) = true.
Proof.
  destruct (compute_multi_phase_flow (M := sample_libm) (sample_backend false)
                                     150.0 1.5 0.0 no_geometry no_properties)
    as [r |] eqn:E; [| vm_compute in E; discriminate E].
  exists r. split; [reflexivity |].
  pose proof (proj1 (proj2 (proj2 (proj1 (proj2
    (C7_pressure_drop_zero_flow sample_libm (sample_backend false)
                                150.0 1.5 0.0 no_geometry no_properties))
    r E)) eq_refl)) as N.
  split; [| split; [| exact N]];
    vm_compute in E; injection E as <-; reflexivity.
Defined.

(** C8.  The analytical scalars of a response are a function of the
    request alone: two runs of the same request, under any two states of
    the inference backend, of the clock and of the line counter, that both
    return give the same efficiency, energy consumption and additional
    metrics; and when the loop serves the same request twice in a row and
    reaches the end of its input, it has written two responses with the
    same [requestId], [tankId] and analytical scalars. *)
Theorem C8_analytical_scalars_deterministic :
  forall (M : Libm) (req : Request),
    (forall (B1 B2 : Backend) (n1 n2 : nat) (r1 r2 : SimulationResult),
        route B1 n1 req = Ok r1 -> route B2 n2 req = Ok r2 ->
        analytical_scalars r1 = analytical_scalars r2)
    /\ (forall (B : Backend) (n : nat) (request : binding)
               (outs : list output),
        main_loop B n request [Parsed req; Parsed req] = (outs, EndOfInput) ->
        exists id tank r1 r2,
          outs = [Response id tank r1; Response id tank r2]
          /\ analytical_scalars r1 = analytical_scalars r2).
Proof.
  intros M req. split.
  - intros B1 B2 n1 n2 r1 r2. apply route_scalars.
  - intros B n request outs. cbn [main_loop serve].
    destruct (route B n req) as [r1 |] eqn:E1;
      [| rewrite handle_exception_escapes; discriminate].
    destruct (route B (S n) req) as [r2 |] eqn:E2;
      [| rewrite handle_exception_escapes; discriminate].
    intros [= <-]. do 4 eexists. split; [reflexivity |].
    exact (route_scalars M B B n (S n) req r1 r2 E1 E2).
Qed.

Lemma C8_analytical_scalars_witness :
  exists r1 r2,
    main (M := sample_libm) (sample_backend false)
         [ Parsed (request "r1" "fluid_dynamics"
                           (Some (laminar_parameters (PyInt 120))));
           Parsed (request "r1" "fluid_dynamics"
                           (Some (laminar_parameters (PyInt 120)))) ]
    = ([INIT_COMPLETE; Response "r1" 3 r1; Response "r1" 3 r2], EndOfInput)
    /\ analytical_scalars r1 = analytical_scalars r2.
Proof.
  do 2 eexists. split; [vm_compute; reflexivity |].
  apply (proj1 (C8_analytical_scalars_deterministic
                  sample_libm
                  (request "r1" "fluid_dynamics"
                           (Some (laminar_parameters (PyInt 120)))))
               (sample_backend false) (sample_backend false) 0%nat 1%nat);
    vm_compute; reflexivity.
Defined.

(** C9, on the code.  When the external-flow module returns, its drag
    coefficient is the constant 0.5, finite and not negative.  It does
    not return for every request: without the Modulus package
    ([MODULUS_AVAILABLE = False], the case for which line 38 announces a
    fall-back to simplified models) the first line of the module meets the
    unbound name [FullyConnectedArch] and raises [NameError]; with the
    package, an exception of the solver is passed on. *)
Theorem C9_drag_coefficient :
  forall (B : Backend) (fluid_velocity : list float)
         (fluid_viscosity fluid_density ball_radius : float),
    (forall r,
        compute_external_flow B fluid_velocity fluid_viscosity fluid_density
                              ball_radius = Ok r ->
        ExternalFlow.drag_coefficient r = 0.5
        /\ is_finite (ExternalFlow.drag_coefficient r) = true
        /\ (0 <=? ExternalFlow.drag_coefficient r) = true)
    /\ (modulus_available B = false ->
        compute_external_flow B fluid_velocity fluid_viscosity fluid_density
                              ball_radius
        = Raise (NameError "FullyConnectedArch"))
    /\ (modulus_available B = true ->
        compute_external_flow B fluid_velocity fluid_viscosity fluid_density
                              ball_radius
        = match modulus_solve B fluid_viscosity fluid_density with
          | Ok _ =>
              Ok {| ExternalFlow.drag_coefficient := 0.5;
                    ExternalFlow.image :=
                      "iVBORw0KGgoAAAANSUhEUgAAAAEAAAABCAQAAAC1HAwCAAAAC0lEQVR42mNkYAAAAAYAAjCB0C8AAAAASUVORK5CYII=" |}
          | Raise e => Raise e
          end).
Proof.
  intros B fluid_velocity fluid_viscosity fluid_density ball_radius.
  split; [| split].
  - intros r H. apply external_flow_drag in H. rewrite H.
    repeat split.
  - intros Hm. unfold compute_external_flow, lookup_global, bound.
    rewrite Hm. reflexivity.
  - intros Hm. unfold compute_external_flow, lookup_global, bound.
    rewrite Hm. cbn. destruct (modulus_solve B _ _); reflexivity.
Qed.

Lemma C9_drag_coefficient_witness :
  main (M := sample_libm) (sample_backend false)
       [Parsed (request "r1" "external_flow_golf_ball" None)]
  = ([INIT_COMPLETE], Fatal (NameError "traceback"))
  /\ compute_external_flow (sample_backend false) [10.0; 0.0; 0.0]
                           1.81e-5 1.225 0.02135
     = Raise (NameError "FullyConnectedArch").
Proof.
  split; [reflexivity |].
  exact (proj1 (proj2 (C9_drag_coefficient (sample_backend false)
                         [10.0; 0.0; 0.0] 1.81e-5 1.225 0.02135)) eq_refl).
Defined.

(** C10.  A fluid-dynamics response has efficiency 0.85, confidence 0.88,
    heat flux [[0.0, 0.0]] and energy consumption 0.1; a multi-phase
    response has efficiency 0.78 and confidence 0.85; a thermal-coil
    response has confidence 0.92; an external-flow response has efficiency
    0 and confidence 0.9, whatever the parameters.  The thermal-coil
    efficiency does depend on them: with the coil inlet at 180 and at 100
    (tank at 120) two requests that are otherwise the same get different
    efficiencies. *)
Theorem C10_constant_fields :
  forall (M : Libm) (B : Backend) (n : nat),
    (forall p r,
        simulate_fluid_dynamics B n p = Ok r ->
        efficiency r = 0.85 /\ confidence r = 0.88
        /\ heatFlux r = [0.0; 0.0] /\ energyConsumption r = 0.1)
    /\ (forall p r,
        simulate_multi_phase B n p = Ok r ->
        efficiency r = 0.78 /\ confidence r = 0.85)
    /\ (forall p r,
        simulate_thermal_coil B n p = Ok r -> confidence r = 0.92)
    /\ (forall p r,
        simulate_external_flow_golf_ball B n p = Ok r ->
        efficiency r = 0 /\ confidence r = 0.9)
    /\ (exists r1 r2,
        simulate_thermal_coil B n (unit_coil_parameters 180.0) = Ok r1
        /\ simulate_thermal_coil B n (unit_coil_parameters 100.0) = Ok r2
        /\ efficiency r1 <> efficiency r2).
Proof.
  intros M B n. split; [| split; [| split; [| split]]].
  - intros p r. unfold simulate_fluid_dynamics. destruct (clock B n).
    same_steps. intros [= <-]. repeat split.
  - intros p r. unfold simulate_multi_phase. destruct (clock B n).
    same_steps. intros [= <-]. repeat split.
  - intros p r. unfold simulate_thermal_coil. destruct (clock B n).
    same_steps. intros [= <-]. reflexivity.
  - intros p r. unfold simulate_external_flow_golf_ball.
    destruct (clock B n). same_steps. intros [= <-]. repeat split.
  - unfold simulate_thermal_coil. destruct (clock B n) as [t0 t1].
    do 2 eexists. split; [vm_compute; reflexivity |].
    split; [vm_compute; reflexivity |].
    vm_compute. discriminate.
Qed.

Lemma C10_constant_fields_witness :
  exists r,
    simulate_fluid_dynamics (M := sample_libm) (sample_backend false) 0
                            (laminar_parameters (PyInt 120)) = Ok r
    /\ efficiency r = 0.85 /\ confidence r = 0.88
    /\ heatFlux r = [0.0; 0.0] /\ energyConsumption r = 0.1.
Proof.
  destruct (simulate_fluid_dynamics (M := sample_libm) (sample_backend false)
                                    0 (laminar_parameters (PyInt 120)))
    as [r |] eqn:E; [| vm_compute in E; discriminate E].
  exists r. split; [reflexivity |].
  exact (proj1 (C10_constant_fields sample_libm (sample_backend false) 0)
               _ r E).
Defined.


(** * Further properties of the protocol loop *)

(** X1.  The loop writes at most one line per line read, and exactly one
    per line precisely when it reaches the end of its input; that happens
    precisely when every line is one it answers: a line on which
    [json.loads] raises [JSONDecodeError], or a request whose simulation
    returns.  Any other line (another exception of [json.loads], a JSON
    value that is not an object, a request that fails) ends the loop. *)
Theorem one_output_per_line :
  forall (M : Libm) (B : Backend) (stdin : list line) (n : nat)
         (request : binding),
    (List.length (fst (main_loop B n request stdin)) <= List.length stdin)%nat
    /\ (snd (main_loop B n request stdin) = EndOfInput
        <-> List.length (fst (main_loop B n request stdin))
            = List.length stdin)
    /\ (snd (main_loop B n request stdin) = EndOfInput
        <-> all_answered B n stdin = true).
Proof.
  intros M B stdin. induction stdin as [| l rest IH]; intros n request.
  - cbn. repeat split; intros; reflexivity.
  - cbn [main_loop all_answered].
    destruct (serve B n request l) as [o | e] eqn:Es.
    + assert (Ha : answered B n l = true).
      { destruct l as [msg | e | | decoded]; cbn in Es |- *.
        - reflexivity.
        - rewrite handle_exception_escapes in Es. discriminate.
        - rewrite handle_exception_escapes in Es. discriminate.
        - destruct (route B n decoded); [reflexivity |].
          rewrite handle_exception_escapes in Es. discriminate. }
      rewrite Ha. cbn [andb].
      destruct (IH (S n) (assign request l)) as (Hle & Hlen & Hall).
      destruct (main_loop B (S n) (assign request l) rest) as [outs final].
      cbn in *.
      split; [lia |]. split; [| exact Hall].
      rewrite Hlen. split; intros H; lia.
    + assert (Ha : answered B n l = false).
      { destruct l as [msg | e' | | decoded]; cbn in Es |- *.
        - discriminate.
        - reflexivity.
        - reflexivity.
        - destruct (route B n decoded); [discriminate | reflexivity]. }
      rewrite Ha. cbn. split; [lia |]. split; split; discriminate.
Qed.

(** X2.  Responses come in the order of the requests: the [requestId]s of
    the lines written are those of the lines read, one for one from the
    first, as far as the output goes; a request without a [requestId] is
    answered under [unknown]. *)
Theorem responses_in_request_order :
  forall (M : Libm) (B : Backend) (stdin : list line) (n : nat)
         (request : binding),
    map output_id (fst (main_loop B n request stdin))
    = firstn (List.length (fst (main_loop B n request stdin)))
             (map line_id stdin).
Proof.
  intros M B stdin. induction stdin as [| l rest IH]; intros n request.
  - reflexivity.
  - cbn [main_loop].
    destruct (serve B n request l) as [o | e] eqn:Es; [| reflexivity].
    specialize (IH (S n) (assign request l)).
    destruct (main_loop B (S n) (assign request l) rest) as [outs final].
    cbn in *.
    rewrite <- IH. f_equal.
    destruct l as [msg | e | | decoded]; cbn in Es.
    + injection Es as <-. reflexivity.
    + rewrite handle_exception_escapes in Es. discriminate.
    + rewrite handle_exception_escapes in Es. discriminate.
    + destruct (route B n decoded).
      * injection Es as <-. reflexivity.
      * rewrite handle_exception_escapes in Es. discriminate.
Qed.

(** X3.  Whatever the input, every [ErrorResult] the loop writes answers
    a line on which [json.loads] raised [JSONDecodeError] and carries the
    [requestId] [unknown]: no error response ever names a request.  And
    the only exception that ends the loop is the [NameError] on
    [traceback]. *)
Theorem error_results_name_no_request :
  forall (M : Libm) (B : Backend) (stdin : list line) (n : nat)
         (request : binding),
    Forall (fun o =>
              match o with
              | ErrorResult error id =>
                  id = "unknown"%string
                  /\ exists msg,
                       In (Malformed msg) stdin
                       /\ error = ("Invalid JSON: " ++ msg)%string
              | Response _ _ _ => True
              | INIT_COMPLETE => False
              end)
           (fst (main_loop B n request stdin))
    /\ (forall e, snd (main_loop B n request stdin) = Fatal e ->
                  e = NameError "traceback").
Proof.
  intros M B stdin. induction stdin as [| l rest IH]; intros n request.
  - split; [constructor | discriminate].
  - cbn [main_loop].
    destruct (serve B n request l) as [o | e] eqn:Es.
    + destruct (IH (S n) (assign request l)) as [Hall Hfatal].
      destruct (main_loop B (S n) (assign request l) rest) as [outs final].
      cbn in *.
      split; [| exact Hfatal]. constructor.
      * destruct l as [msg | e | | decoded]; cbn in Es.
        -- injection Es as <-. split; [reflexivity |].
           exists msg. split; [left; reflexivity | reflexivity].
        -- rewrite handle_exception_escapes in Es. discriminate.
        -- rewrite handle_exception_escapes in Es. discriminate.
        -- destruct (route B n decoded).
           ++ injection Es as <-. exact I.
           ++ rewrite handle_exception_escapes in Es. discriminate.
      * eapply Forall_impl; [| exact Hall].
        intros [| id tank r | error id]; try tauto.
        intros [Hid (msg & Hin & Herr)]. split; [exact Hid |].
        exists msg. split; [right; exact Hin | exact Herr].
    + cbn. split; [constructor |]. intros e' [= <-].
      destruct l as [msg | e' | | decoded]; cbn in Es.
      * discriminate.
      * rewrite handle_exception_escapes in Es. congruence.
      * rewrite handle_exception_escapes in Es. congruence.
      * destruct (route B n decoded); [discriminate |].
        rewrite handle_exception_escapes in Es. congruence.
Qed.

(** * Further properties of the physics modules *)

Module Order.
Import FloatFacts.

Lemma below_zero_below_positive x t :
  (x <? 0) = true -> (0 <? t) = true -> (x <? t) = true.
Proof.
  rewrite ltb_zero_spec, zero_ltb_spec, FloatAxioms.ltb_spec.
  destruct (Prim2SF x) as [[] | [] | | [] mx ex],
           (Prim2SF t) as [[] | [] | | [] mt et];
    simpl; try discriminate; reflexivity.
Qed.

Lemma zero_or_nan_not_positive x : zero_or_nan x -> (0 <? x) = false.
Proof.
  unfold zero_or_nan. rewrite zero_ltb_spec.
  destruct (Prim2SF x) as [[] | [] | | [] mx ex]; try discriminate;
    reflexivity.
Qed.

Lemma py_pow_of_zero_or_nan (M : Libm) x y p :
  zero_or_nan x -> py_pow x y = Ok p -> zero_or_nan p.
Proof.
  intros Hx. rewrite py_pow_unfold.
  destruct (Special.zero_or_nan_cases x Hx) as [[Hz Hn] | [Hz Hn]];
    rewrite Hn.
  - replace (is_infinity x) with false.
    + rewrite Hz. intros [= <-]. reflexivity.
    + unfold is_infinity. rewrite FloatAxioms.eqb_spec, abs_spec.
      rewrite is_zero_spec in Hz.
      destruct (Prim2SF x) as [[] | [] | | [] mx ex]; try discriminate;
        reflexivity.
  - intros [= <-]. exact Hx.
Qed.

End Order.

(** X5.  On parameters that are floats (what [json.loads] makes of a
    number written with a fraction or an exponent), whatever their values,
    the fluid-dynamics module fails only by [ZeroDivisionError] or
    [OverflowError]: a negative Reynolds number takes the laminar formula
    and never reaches the fractional power that would make it complex. *)
Theorem fluid_dynamics_exceptions :
  forall (M : Libm) (B : Backend) (temperature pressure flow_rate : float)
         (g : Geometry) (m : MaterialProperties) (e : exn),
    compute_fluid_dynamics B temperature pressure flow_rate g m = Raise e ->
    e = ZeroDivisionError \/ e = OverflowError.
Proof.
  intros M B temperature pressure flow_rate g m e.
  unfold compute_fluid_dynamics. cbv zeta.
  assert (Hdiv : forall x y e', py_div x y = Raise e' ->
                                e' = ZeroDivisionError).
  { intros x y e'. unfold py_div. destruct (is_zero y); congruence. }
  assert (Hsqr : forall x e', py_sqr x = Raise e' -> e' = OverflowError).
  { intros x e'. unfold py_sqr. cbv zeta.
    destruct (is_infinity (x * x) && negb (is_infinity x)); congruence. }
  destruct (py_sqr _) as [r2 |] eqn:E1; cbn [bind];
    [| intros [= <-]; right; eapply Hsqr; eassumption].
  destruct (py_div flow_rate _) as [v |] eqn:E2; cbn [bind];
    [| intros [= <-]; left; eapply Hdiv; eassumption].
  destruct (py_div _ (get (viscosity m) 0.01)) as [re |] eqn:E3; cbn [bind];
    [| intros [= <-]; left; eapply Hdiv; eassumption].
  destruct (if re <? 2300 then _ else _) as [ff |] eqn:E4; cbn [bind].
  - destruct (py_div (get (pipeLength g) 10.0) _) as [lr |] eqn:E5;
      cbn [bind]; [| intros [= <-]; left; eapply Hdiv; eassumption].
    destruct (py_sqr v) as [v2 |] eqn:E6; cbn [bind];
      [discriminate | intros [= <-]; right; eapply Hsqr; eassumption].
  - intros [= <-]. destruct (re <? 2300) eqn:Lam.
    + left. eapply Hdiv; eassumption.
    + destruct (py_pow re 0.25) as [p |] eqn:Ep; cbn [bind] in E4.
      * left. eapply Hdiv; eassumption.
      * injection E4 as <-. revert Ep. rewrite py_pow_unfold.
        destruct (is_nan re); [discriminate |].
        destruct (is_infinity re); [discriminate |].
        destruct (is_zero re); [discriminate |].
        destruct (re <? 0) eqn:Neg.
        { rewrite (Order.below_zero_below_positive re 2300 Neg eq_refl)
            in Lam. discriminate. }
        destruct (re =? 1); [discriminate |].
        destruct (is_infinity (libm_pow re 0.25)); [| discriminate].
        intros [= <-]. right. reflexivity.
Qed.

Lemma fluid_dynamics_exceptions_witness :
  exists e,
    compute_fluid_dynamics (M := sample_libm) (sample_backend false)
                           120.0 2.0 0.0 no_geometry no_properties = Raise e
    /\ (e = ZeroDivisionError \/ e = OverflowError).
Proof.
  destruct (compute_fluid_dynamics (M := sample_libm) (sample_backend false)
                                   120.0 2.0 0.0 no_geometry no_properties)
    as [r | e] eqn:E; [vm_compute in E; discriminate E |].
  exists e. split; [reflexivity |].
  exact (fluid_dynamics_exceptions sample_libm (sample_backend false)
           120.0 2.0 0.0 no_geometry no_properties e E).
Defined.

(** X6.  On inputs that are all [>= 0], whatever the fluid-dynamics
    module returns is not below zero: velocity, Reynolds number, friction
    factor and pressure drop are each positive, zero or NaN, never
    negative. *)
Theorem fluid_dynamics_not_negative :
  forall (M : Libm) (B : Backend) (temperature pressure flow_rate : float)
         (g : Geometry) (m : MaterialProperties) (r : FluidDynamics.t),
    valid_fluid_dynamics flow_rate g m = true ->
    compute_fluid_dynamics B temperature pressure flow_rate g m = Ok r ->
    (FluidDynamics.velocity r <? 0) = false
    /\ (FluidDynamics.reynoldsNumber r <? 0) = false
    /\ (FluidDynamics.frictionFactor r <? 0) = false
    /\ (FluidDynamics.pressureDrop r <? 0) = false.
Proof.
  intros M B temperature pressure flow_rate g m r Hvalid H.
  unfold valid_fluid_dynamics in Hvalid.
  repeat (apply andb_true_iff in Hvalid as [Hvalid ?]).
  assert (Hq : not_below_zero flow_rate) by (apply Sign.of_leb; assumption).
  assert (Hr : not_below_zero (get (pipeRadius g) 0.05))
    by (apply get_not_below_zero; [assumption | reflexivity]).
  assert (Hl : not_below_zero (get (pipeLength g) 10.0))
    by (apply get_not_below_zero; [assumption | reflexivity]).
  assert (Hmu : not_below_zero (get (viscosity m) 0.01))
    by (apply get_not_below_zero; [assumption | reflexivity]).
  assert (Hrho : not_below_zero (get (density m) 850.0))
    by (apply get_not_below_zero; [assumption | reflexivity]).
  unfold compute_fluid_dynamics in H. cbv zeta in H.
  destruct (py_sqr _) as [r2 |] eqn:E1; [cbn [bind] in H | discriminate].
  destruct (py_div flow_rate _) as [v |] eqn:E2;
    [cbn [bind] in H | discriminate].
  destruct (py_div _ (get (viscosity m) 0.01)) as [re |] eqn:E3;
    [cbn [bind] in H | discriminate].
  destruct (if re <? 2300 then _ else _) as [ff |] eqn:E4;
    [cbn [bind] in H | discriminate].
  destruct (py_div (get (pipeLength g) 10.0) _) as [lr |] eqn:E5;
    [cbn [bind] in H | discriminate].
  destruct (py_sqr v) as [v2 |] eqn:E6; [cbn [bind] in H | discriminate].
  injection H as <-. cbn.
  apply py_sqr_ok in E1 as ->. apply py_sqr_ok in E6 as ->.
  apply py_div_ok in E2 as [Hz2 ->].
  apply py_div_ok in E3 as [Hz3 ->].
  apply py_div_ok in E5 as [Hz5 ->].
  set (v := flow_rate / _) in *.
  assert (Hv : not_below_zero v).
  { apply Sign.div; [assumption | | assumption].
    apply Sign.mul; [reflexivity | apply Sign.mul; assumption]. }
  set (re := _ / get (viscosity m) 0.01) in *.
  assert (Hre : not_below_zero re).
  { apply Sign.div; [| assumption | assumption].
    repeat apply Sign.mul; (assumption || reflexivity). }
  assert (Hff : not_below_zero ff).
  { destruct (re <? 2300).
    - apply py_div_ok in E4 as [Hz4 ->].
      apply Sign.div; [reflexivity | assumption | assumption].
    - destruct (py_pow re 0.25) as [p |] eqn:Ep;
        [cbn [bind] in E4 | discriminate].
      apply py_div_ok in E4 as [Hz4 ->].
      apply Sign.div; [reflexivity | | assumption].
      eapply Sign.py_pow_result; eassumption. }
  repeat split; try assumption.
  apply Sign.div; [| reflexivity | reflexivity].
  apply Sign.mul; [apply Sign.mul |]; try assumption.
  - apply Sign.div; [assumption | | assumption].
    apply Sign.mul; [assumption | reflexivity].
  - apply Sign.mul; [assumption | apply Sign.mul; assumption].
Qed.

Lemma fluid_dynamics_not_negative_witness :
  exists r,
    compute_fluid_dynamics (M := sample_libm) (sample_backend false)
                           120.0 2.0 0.001 no_geometry no_properties = Ok r
    /\ (FluidDynamics.velocity r <? 0) = false
    /\ (FluidDynamics.reynoldsNumber r <? 0) = false
    /\ (FluidDynamics.frictionFactor r <? 0) = false
    /\ (FluidDynamics.pressureDrop r <? 0) = false.
Proof.
  destruct (compute_fluid_dynamics (M := sample_libm) (sample_backend false)
                                   120.0 2.0 0.001 no_geometry no_properties)
    as [r |] eqn:E; [| vm_compute in E; discriminate E].
  exists r. split; [reflexivity |].
  exact (fluid_dynamics_not_negative sample_libm (sample_backend false)
           120.0 2.0 0.001 no_geometry no_properties r eq_refl E).
Defined.

(** X7.  On parameters that are all [>= 0] the thermal-coil module never
    meets a complex power: it returns, or it fails by [ZeroDivisionError]
    (a zero viscosity, conductivity or pipe diameter) or [OverflowError];
    and what it returns has a Reynolds number, a Nusselt number and a
    surface area that are not below zero. *)
Theorem heat_transfer_on_valid_parameters :
  forall (M : Libm) (B : Backend) (tank_temp coil_inlet_temp flow_rate : float)
         (g : Geometry) (m : MaterialProperties),
    valid_thermal_coil tank_temp coil_inlet_temp flow_rate g m = true ->
    match compute_heat_transfer B tank_temp coil_inlet_temp flow_rate g m with
    | Ok r =>
        (HeatTransfer.reynoldsNumber r <? 0) = false
        /\ (HeatTransfer.nusseltNumber r <? 0) = false
        /\ (HeatTransfer.surfaceArea r <? 0) = false
    | Raise e => e = ZeroDivisionError \/ e = OverflowError
    end.
Proof.
  intros M B tank inlet flow g m Hvalid.
  unfold valid_thermal_coil in Hvalid.
  repeat (apply andb_true_iff in Hvalid as [Hvalid ?]).
  assert (Hq : not_below_zero flow) by (apply Sign.of_leb; assumption).
  assert (Hr : not_below_zero (get (pipeRadius g) 0.05))
    by (apply get_not_below_zero; [assumption | reflexivity]).
  assert (Hmu : not_below_zero (get (viscosity m) 0.01))
    by (apply get_not_below_zero; [assumption | reflexivity]).
  assert (Hrho : not_below_zero (get (density m) 850.0))
    by (apply get_not_below_zero; [assumption | reflexivity]).
  assert (Hcp : not_below_zero (get (specificHeat m) 2100.0))
    by (apply get_not_below_zero; [assumption | reflexivity]).
  assert (Hk : not_below_zero (get (thermalConductivity m) 0.14))
    by (apply get_not_below_zero; [assumption | reflexivity]).
  assert (Hdiv : forall x y e', py_div x y = Raise e' ->
                                e' = ZeroDivisionError).
  { intros x y e'. unfold py_div. destruct (is_zero y); congruence. }
  assert (Hpow : forall x y, not_below_zero x ->
                             match float_pow x y with
                             | Ok (Real _) => True
                             | Ok Complex => False
                             | Raise e' => e' = OverflowError
                             end).
  { intros x y Hx. unfold float_pow.
    destruct (is_nan x); [exact I |].
    destruct (is_infinity x); [exact I |].
    destruct (is_zero x); [exact I |].
    rewrite Hx. destruct (x =? 1); [exact I |]. cbv zeta.
    destruct (is_infinity (libm_pow x y)); [reflexivity | exact I]. }
  destruct (compute_heat_transfer B tank inlet flow g m) as [r | e] eqn:E.
  - apply heat_transfer_ok in E
      as (p1 & p2 & Hz1 & _ & _ & Ep1 & Ep2 & -> & -> & -> & _ & _).
    split; [| split].
    + apply Sign.div; [| assumption | assumption].
      repeat apply Sign.mul; (assumption || reflexivity).
    + apply Sign.mul; [apply Sign.mul; [reflexivity |] |];
        eapply Sign.py_pow_result; eassumption.
    + repeat apply Sign.mul; try reflexivity;
        apply get_not_below_zero; (assumption || reflexivity).
  - revert E. unfold compute_heat_transfer. cbv zeta.
    destruct (py_div _ (get (viscosity m) 0.01)) as [re |] eqn:Ere;
      cbn [bind]; [| intros [= <-]; left; eapply Hdiv; eassumption].
    destruct (py_div _ (get (thermalConductivity m) 0.14)) as [pr |] eqn:Epr;
      cbn [bind]; [| intros [= <-]; left; eapply Hdiv; eassumption].
    apply py_div_ok in Ere as [Hz1 ->]. apply py_div_ok in Epr as [Hz2 ->].
    set (re := _ / get (viscosity m) 0.01).
    set (pr := _ / get (thermalConductivity m) 0.14).
    assert (Hre : not_below_zero re).
    { apply Sign.div; [| assumption | assumption].
      repeat apply Sign.mul; (assumption || reflexivity). }
    assert (Hpr : not_below_zero pr).
    { apply Sign.div; [| assumption | assumption].
      apply Sign.mul; assumption. }
    pose proof (Hpow re 0.8 Hre) as P1. pose proof (Hpow pr 0.4 Hpr) as P2.
    destruct (float_pow re 0.8) as [[p1 |] | e1]; cbn [bind];
      [| destruct P1 | intros [= <-]; right; exact P1].
    destruct (float_pow pr 0.4) as [[p2 |] | e2]; cbn [bind];
      [| destruct P2 | intros [= <-]; right; exact P2].
    cbn [scale times times_float]. unfold over.
    destruct (is_zero (get (pipeRadius g) 0.05 * 2)); cbn [bind];
      [intros [= <-]; left; reflexivity |].
    cbn [times_float].
    destruct (0 <? _) eqn:Hmax.
    + destruct (Sign.of_pos _ Hmax) as [_ Hz]. rewrite Hz.
      cbn. discriminate.
    + cbn. discriminate.
Qed.

Lemma heat_transfer_on_valid_parameters_witness :
  exists r,
    compute_heat_transfer
      (M := sample_libm) (sample_backend false) 120.0 180.0 1.0
      (get (geometry (unit_coil_parameters 180.0)) no_geometry)
      (get (materialProperties (unit_coil_parameters 180.0)) no_properties)
    = Ok r
    /\ (HeatTransfer.reynoldsNumber r <? 0) = false
    /\ (HeatTransfer.nusseltNumber r <? 0) = false
    /\ (HeatTransfer.surfaceArea r <? 0) = false.
Proof.
  pose proof (heat_transfer_on_valid_parameters
                sample_libm (sample_backend false) 120.0 180.0 1.0
                (get (geometry (unit_coil_parameters 180.0)) no_geometry)
                (get (materialProperties (unit_coil_parameters 180.0))
                     no_properties)
                eq_refl) as P.
  destruct (compute_heat_transfer
              (M := sample_libm) (sample_backend false) 120.0 180.0 1.0
              (get (geometry (unit_coil_parameters 180.0)) no_geometry)
              (get (materialProperties (unit_coil_parameters 180.0))
                   no_properties))
    as [r |] eqn:E; [| vm_compute in E; discriminate E].
  exists r. split; [reflexivity | exact P].
Defined.

(** X8.  With a flow rate of zero the thermal-coil module, whenever it
    returns, reports an efficiency of exactly 0: the maximum possible heat
    transfer is zero or NaN, never positive.  Its Reynolds number and its
    heat-transfer rate are zero or NaN as well. *)
Theorem heat_transfer_at_zero_flow :
  forall (M : Libm) (B : Backend) (tank_temp coil_inlet_temp flow_rate : float)
         (g : Geometry) (m : MaterialProperties) (r : HeatTransfer.t),
    is_zero flow_rate = true ->
    compute_heat_transfer B tank_temp coil_inlet_temp flow_rate g m = Ok r ->
    HeatTransfer.efficiency r = 0
    /\ zero_or_nan (HeatTransfer.reynoldsNumber r)
    /\ zero_or_nan (HeatTransfer.heatTransferRate r).
Proof.
  intros M B tank inlet flow g m r Hflow H.
  pose proof (Special.of_zero _ Hflow) as Zq.
  apply heat_transfer_ok in H
    as (p1 & p2 & _ & _ & _ & Ep1 & Ep2 & Hre & _ & _ & Hrate & Heff).
  assert (Zmax : zero_or_nan
                   (flow * get (density m) 850.0 * get (specificHeat m) 2100.0
                    * (inlet - tank)))
    by (do 3 apply Special.mul_l; exact Zq).
  rewrite (Order.zero_or_nan_not_positive _ Zmax) in Heff.
  assert (Zre : zero_or_nan
                  (get (density m) 850.0 * flow * get (pipeRadius g) 0.05 * 2
                   / get (viscosity m) 0.01)).
  { apply Special.div_l. do 2 apply Special.mul_l. apply Special.mul_r, Zq. }
  split; [exact Heff |]. split; [rewrite Hre; exact Zre |].
  rewrite Hrate.
  do 2 apply Special.mul_l. apply Special.div_l. apply Special.mul_l.
  apply Special.mul_l. apply Special.mul_r.
  eapply Order.py_pow_of_zero_or_nan; eassumption.
Qed.

Lemma heat_transfer_at_zero_flow_witness :
  exists r,
    compute_heat_transfer (M := sample_libm) (sample_backend false)
                          120.0 180.0 0.0 no_geometry no_properties = Ok r
    /\ HeatTransfer.efficiency r = 0
    /\ zero_or_nan (HeatTransfer.reynoldsNumber r)
    /\ zero_or_nan (HeatTransfer.heatTransferRate r).
Proof.
  destruct (compute_heat_transfer (M := sample_libm) (sample_backend false)
                                  120.0 180.0 0.0 no_geometry no_properties)
    as [r |] eqn:E; [| vm_compute in E; discriminate E].
  exists r. split; [reflexivity |].
  exact (heat_transfer_at_zero_flow sample_libm (sample_backend false)
           120.0 180.0 0.0 no_geometry no_properties r eq_refl E).
Defined.

(** X9.  With a flow rate of zero the fluid-dynamics module never returns
    a number for the pressure drop: every return (only NaN inputs make
    one, a zero Reynolds number stops at [64 / Re]) has a NaN Reynolds
    number and a NaN pressure drop. *)
Theorem fluid_dynamics_at_zero_flow :
  forall (M : Libm) (B : Backend) (temperature pressure flow_rate : float)
         (g : Geometry) (m : MaterialProperties) (r : FluidDynamics.t),
    is_zero flow_rate = true ->
    compute_fluid_dynamics B temperature pressure flow_rate g m = Ok r ->
    is_nan (FluidDynamics.reynoldsNumber r) = true
    /\ is_nan (FluidDynamics.pressureDrop r) = true.
Proof.
  intros M B temperature pressure flow_rate g m r Hflow H.
  unfold compute_fluid_dynamics in H. cbv zeta in H.
  destruct (py_sqr _) as [r2 |] eqn:E1; [cbn [bind] in H | discriminate].
  destruct (py_div flow_rate _) as [v |] eqn:E2;
    [cbn [bind] in H | discriminate].
  destruct (py_div _ (get (viscosity m) 0.01)) as [re |] eqn:E3;
    [cbn [bind] in H | discriminate].
  destruct (if re <? 2300 then _ else _) as [ff |] eqn:E4;
    [cbn [bind] in H | discriminate].
  destruct (py_div (get (pipeLength g) 10.0) _) as [lr |] eqn:E5;
    [cbn [bind] in H | discriminate].
  destruct (py_sqr v) as [v2 |] eqn:E6; [cbn [bind] in H | discriminate].
  injection H as <-. cbn.
  apply py_sqr_ok in E6 as ->.
  apply py_div_ok in E2 as [_ Hv]. apply py_div_ok in E3 as [_ Hre].
  assert (Zv : zero_or_nan v)
    by (rewrite Hv; apply Special.div_l, Special.of_zero, Hflow).
  assert (Zre : zero_or_nan re).
  { rewrite Hre. apply Special.div_l. do 2 apply Special.mul_l.
    apply Special.mul_r, Zv. }
  destruct (Special.zero_or_nan_cases _ Zre) as [[Hz Hn] | [Hz Hn]].
  - rewrite (Special.ltb_zero_l re 2300 Hz eq_refl) in E4.
    unfold py_div in E4. rewrite Hz in E4. discriminate.
  - rewrite (Special.ltb_nan_l re 2300 Hn) in E4.
    rewrite py_pow_unfold, Hn in E4. cbn [bind] in E4.
    apply py_div_ok in E4 as [_ ->].
    split; [exact Hn |].
    apply Special.nan_div, Special.inf_mul_zero.
    + apply Special.inf_mul, Special.div_by_nan, Hn.
    + apply Special.mul_r, Special.mul_r, Zv.
Qed.

Lemma fluid_dynamics_at_zero_flow_witness :
  exists r,
    compute_fluid_dynamics (M := sample_libm) (sample_backend false)
                           120.0 2.0 0.0 no_geometry nan_density_properties
    = Ok r
    /\ is_nan (FluidDynamics.reynoldsNumber r) = true
    /\ is_nan (FluidDynamics.pressureDrop r) = true.
Proof.
  destruct (compute_fluid_dynamics (M := sample_libm) (sample_backend false)
                                   120.0 2.0 0.0 no_geometry
                                   nan_density_properties)
    as [r |] eqn:E; [| vm_compute in E; discriminate E].
  exists r. split; [reflexivity |].
  exact (fluid_dynamics_at_zero_flow sample_libm (sample_backend false)
           120.0 2.0 0.0 no_geometry nan_density_properties r eq_refl E).
Defined.

(** X10.  On parameters that are floats, with a viscosity-temperature
    relation that is absent or an object of float coefficients: the
    multi-phase module raises [KeyError] exactly when the relation lacks
    a coefficient, and names the first of [a], [b], [c] that is missing;
    every other failure is a [ZeroDivisionError] (a pipe area or diameter
    of zero) or an [OverflowError] (a square out of range).  The Reynolds
    number and the friction factor are NumPy's and never raise. *)
Theorem multi_phase_exceptions :
  forall (M : Libm) (B : Backend) (temperature pressure flow_rate : float)
         (g : Geometry) (m : MaterialProperties),
    (forall k, missing_coefficient m = Some k ->
               compute_multi_phase_flow B temperature pressure flow_rate g m
               = Raise (KeyError k))
    /\ (forall e, missing_coefficient m = None ->
                  compute_multi_phase_flow B temperature pressure flow_rate
                                           g m = Raise e ->
                  e = ZeroDivisionError \/ e = OverflowError).
Proof.
  intros M B temperature pressure flow_rate g m.
  assert (Hdiv : forall x y e', py_div x y = Raise e' ->
                                e' = ZeroDivisionError).
  { intros x y e'. unfold py_div. destruct (is_zero y); congruence. }
  assert (Hsqr : forall x e', py_sqr x = Raise e' -> e' = OverflowError).
  { intros x e'. unfold py_sqr. cbv zeta.
    destruct (is_infinity (x * x) && negb (is_infinity x)); congruence. }
  unfold missing_coefficient, compute_multi_phase_flow. cbv zeta.
  split.
  - intros k.
    destruct (viscosityTemperatureRelation m) as [relation |];
      [| discriminate].
    cbn [get].
    destruct (rel_a relation); [| intros [= <-]; reflexivity].
    destruct (rel_b relation); [| intros [= <-]; reflexivity].
    destruct (rel_c relation); [discriminate | intros [= <-]; reflexivity].
  - intros e Hnone.
    assert (Hkeys : exists a b c,
               rel_a (get (viscosityTemperatureRelation m)
                          default_viscosity_relation) = Some a
               /\ rel_b (get (viscosityTemperatureRelation m)
                             default_viscosity_relation) = Some b
               /\ rel_c (get (viscosityTemperatureRelation m)
                             default_viscosity_relation) = Some c).
    { destruct (viscosityTemperatureRelation m) as [relation |]; cbn [get].
      - destruct (rel_a relation) as [a |]; [| discriminate].
        destruct (rel_b relation) as [b |]; [| discriminate].
        destruct (rel_c relation) as [c |]; [| discriminate].
        exists a, b, c. repeat split.
      - do 3 eexists. repeat split. }
    destruct Hkeys as (a & b & c & -> & -> & ->). cbn [index bind].
    destruct (py_sqr temperature) as [t2 |] eqn:E1; cbn [bind];
      [| intros [= <-]; right; eapply Hsqr; eassumption].
    destruct (py_sqr (get (pipeRadius g) 0.1)) as [r2 |] eqn:E2; cbn [bind];
      [| intros [= <-]; right; eapply Hsqr; eassumption].
    destruct (py_div flow_rate (pi * r2)) as [v |] eqn:E3; cbn [bind];
      [| intros [= <-]; left; eapply Hdiv; eassumption].
    destruct (py_div (get (pipeLength g) 50.0) _) as [lr |] eqn:E4;
      cbn [bind]; [| intros [= <-]; left; eapply Hdiv; eassumption].
    destruct (py_sqr v) as [v2 |] eqn:E5; cbn [bind];
      [discriminate | intros [= <-]; right; eapply Hsqr; eassumption].
Qed.

(** * Further properties of the simulations *)

Module Steps.

(** A step count that [range] accepts is an int not above the cap. *)
Lemma of_horizon (M : Libm) cap time_horizon steps :
  range (min_cap cap (floor_div_60 time_horizon)) = Ok steps ->
  exists k, min_cap cap (floor_div_60 time_horizon) = PyInt k
            /\ (k <= cap)%Z /\ steps = seq 0 (Z.to_nat k).
Proof.
  destruct time_horizon as [h | x]; cbn [floor_div_60 min_cap].
  - destruct (Z.ltb_spec (h / 60) cap); cbn [range]; intros [= <-];
      eexists; repeat split; lia.
  - destruct (_ <? Z2float cap); cbn [range]; [discriminate |].
    intros [= <-]. eexists; repeat split; lia.
Qed.

Lemma of_integer_horizon (M : Libm) cap h :
  exists steps, range (min_cap cap (floor_div_60 (PyInt h))) = Ok steps.
Proof.
  cbn [floor_div_60 min_cap]. destruct (_ <? cap)%Z; eexists; reflexivity.
Qed.

Lemma time_factors cap ok :
  time_factors_ok cap ok = true ->
  forall k i, (k <= Z.of_nat cap)%Z -> In i (seq 0 (Z.to_nat k)) ->
              ok (time_factor i (PyInt k)) = true.
Proof.
  unfold time_factors_ok. rewrite forallb_forall. intros H k i Hk Hi.
  pose proof Hi as Hi'. apply in_seq in Hi'.
  specialize (H (Z.to_nat k)). rewrite forallb_forall in H.
  rewrite Z2Nat.id in H by lia.
  apply H; [apply in_seq; lia | exact Hi].
Qed.

End Steps.

(** X11.  The trajectory of a thermal-coil simulation that returns: every
    sample is made from a time factor in [0, 1); its temperature is
    [tank + (inlet - tank) * efficiency * factor] and its heat-transfer
    rate is the module's rate times a decay [1 - 0.1 * factor] that lies
    in (0.9, 1], whatever the time horizon. *)
Theorem thermal_coil_trajectory :
  forall (M : Libm) (B : Backend) (n : nat) (p : Parameters)
         (r : SimulationResult),
    let tank_temp := get (temperature p) 120.0 in
    let coil_inlet_temp :=
      get (coilInletTemp (get (boundaryConditions p) no_conditions)) 180.0 in
    simulate_thermal_coil B n p = Ok r ->
    exists h,
      compute_heat_transfer B tank_temp coil_inlet_temp
                            (get (flowRate p) 1.0)
                            (get (geometry p) no_geometry)
                            (get (materialProperties p) no_properties) = Ok h
      /\ Forall
           (fun s =>
              exists tf,
                unit_interval tf = true /\ decay_range tf = true
                /\ s = (tank_temp
                        + (coil_inlet_temp - tank_temp)
                          * HeatTransfer.efficiency h * tf,
                        HeatTransfer.heatTransferRate h * (1 - tf * 0.1)))
           (predictedStates r).
Proof.
  intros M B n p r tank_temp coil_inlet_temp H.
  unfold simulate_thermal_coil in H. destruct (clock B n) as [t0 t1].
  cbv zeta in H. fold tank_temp coil_inlet_temp in H.
  destruct (compute_heat_transfer _ _ _ _ _ _) as [h |] eqn:Eh;
    [cbn [bind] in H | discriminate].
  destruct (range _) as [steps |] eqn:Es; [cbn [bind] in H | discriminate].
  destruct (mul_pynum _ _) as [j |]; [cbn [bind] in H | discriminate].
  destruct (py_div j _) as [en |]; [cbn [bind] in H | discriminate].
  injection H as <-. cbn [predictedStates].
  exists h. split; [reflexivity |].
  apply Steps.of_horizon in Es as (k & -> & Hk & ->).
  apply Forall_forall. intros s Hs. apply in_map_iff in Hs as (i & <- & Hi).
  exists (time_factor i (PyInt k)). split; [| split; [| reflexivity]].
  - apply (Steps.time_factors 60); [vm_compute; reflexivity | exact Hk |].
    exact Hi.
  - apply (Steps.time_factors 60); [vm_compute; reflexivity | exact Hk |].
    exact Hi.
Qed.

Lemma thermal_coil_trajectory_witness :
  exists r,
    simulate_thermal_coil (M := sample_libm) (sample_backend false) 0
                          (unit_coil_parameters 180.0) = Ok r
    /\ List.length (predictedStates r) = 60%nat
    /\ exists h,
         compute_heat_transfer
           (M := sample_libm) (sample_backend false) 120.0 180.0 1.0
           (get (geometry (unit_coil_parameters 180.0)) no_geometry)
           (get (materialProperties (unit_coil_parameters 180.0))
                no_properties) = Ok h
         /\ Forall
              (fun s =>
                 exists tf,
                   unit_interval tf = true /\ decay_range tf = true
                   /\ s = (120.0 + (180.0 - 120.0)
                                   * HeatTransfer.efficiency h * tf,
                           HeatTransfer.heatTransferRate h * (1 - tf * 0.1)))
              (predictedStates r).
Proof.
  destruct (simulate_thermal_coil (M := sample_libm) (sample_backend false) 0
                                  (unit_coil_parameters 180.0))
    as [r |] eqn:E; [| vm_compute in E; discriminate E].
  exists r. split; [reflexivity |]. split.
  - vm_compute in E. injection E as <-. reflexivity.
  - exact (thermal_coil_trajectory sample_libm (sample_backend false) 0
             (unit_coil_parameters 180.0) r E).
Defined.

(** X12.  The trajectory of a fluid-dynamics simulation that returns:
    every sample is made from a time factor in [0, 1); its velocity is the
    module's velocity times [1 + 0.1 * sin (phase)] with a phase
    [2 * pi * factor] in [0, 2 pi), less than one full period, and its
    pressure is the inlet pressure less that fraction of the pressure
    drop. *)
Theorem fluid_dynamics_trajectory :
  forall (M : Libm) (B : Backend) (n : nat) (p : Parameters)
         (r : SimulationResult),
    simulate_fluid_dynamics B n p = Ok r ->
    exists f,
      compute_fluid_dynamics B (get (temperature p) 120.0)
                             (get (pressure p) 2.0) (get (flowRate p) 1.0)
                             (get (geometry p) no_geometry)
                             (get (materialProperties p) no_properties) = Ok f
      /\ Forall
           (fun s =>
              exists tf,
                unit_interval tf = true /\ phase_range tf = true
                /\ s = (FluidDynamics.velocity f
                        * (1 + 0.1 * np_sin (tf * 2 * pi)),
                        get (pressure p) 2.0
                        - FluidDynamics.pressureDrop f * tf))
           (predictedStates r).
Proof.
  intros M B n p r H.
  unfold simulate_fluid_dynamics in H. destruct (clock B n) as [t0 t1].
  cbv zeta in H.
  destruct (compute_fluid_dynamics _ _ _ _ _ _) as [f |] eqn:Ef;
    [cbn [bind] in H | discriminate].
  destruct (range _) as [steps |] eqn:Es; [cbn [bind] in H | discriminate].
  injection H as <-. cbn [predictedStates].
  exists f. split; [reflexivity |].
  apply Steps.of_horizon in Es as (k & -> & Hk & ->).
  apply Forall_forall. intros s Hs. apply in_map_iff in Hs as (i & <- & Hi).
  exists (time_factor i (PyInt k)). split; [| split; [| reflexivity]].
  - apply (Steps.time_factors 60); [vm_compute; reflexivity | exact Hk |].
    exact Hi.
  - apply (Steps.time_factors 60); [vm_compute; reflexivity | exact Hk |].
    exact Hi.
Qed.

Lemma fluid_dynamics_trajectory_witness :
  exists r,
    simulate_fluid_dynamics (M := sample_libm) (sample_backend false) 0
                            (laminar_parameters (PyInt 600)) = Ok r
    /\ List.length (predictedStates r) = 10%nat
    /\ exists f,
         compute_fluid_dynamics (M := sample_libm) (sample_backend false)
                                120.0 2.0 0.001 no_geometry no_properties
         = Ok f
         /\ Forall
              (fun s =>
                 exists tf,
                   unit_interval tf = true /\ phase_range tf = true
                   /\ s = (FluidDynamics.velocity f
                           * (1 + 0.1 * np_sin (M := sample_libm)
                                                (tf * 2 * pi)),
                           2.0 - FluidDynamics.pressureDrop f * tf))
              (predictedStates r).
Proof.
  destruct (simulate_fluid_dynamics (M := sample_libm) (sample_backend false)
                                    0 (laminar_parameters (PyInt 600)))
    as [r |] eqn:E; [| vm_compute in E; discriminate E].
  exists r. split; [reflexivity |]. split.
  - vm_compute in E. injection E as <-. reflexivity.
  - exact (fluid_dynamics_trajectory sample_libm (sample_backend false) 0
             (laminar_parameters (PyInt 600)) r E).
Defined.

(** X13.  The trajectory of a multi-phase simulation that returns: every
    sample is made from a time factor in [0, 1); its temperature is the
    request's less [2 * factor] and its viscosity is the effective
    viscosity times a growth [1 + 0.5 * factor] that lies in [1, 1.5). *)
Theorem multi_phase_trajectory :
  forall (M : Libm) (B : Backend) (n : nat) (p : Parameters)
         (r : SimulationResult),
    simulate_multi_phase B n p = Ok r ->
    exists f,
      compute_multi_phase_flow B (get (temperature p) 150.0)
                               (get (pressure p) 1.5) (get (flowRate p) 0.5)
                               (get (geometry p) no_geometry)
                               (get (materialProperties p) no_properties)
      = Ok f
      /\ Forall
           (fun s =>
              exists tf,
                unit_interval tf = true /\ growth_range tf = true
                /\ s = (get (temperature p) 150.0 - 2 * tf,
                        MultiPhase.effectiveViscosity f * (1 + 0.5 * tf)))
           (predictedStates r).
Proof.
  intros M B n p r H.
  unfold simulate_multi_phase in H. destruct (clock B n) as [t0 t1].
  cbv zeta in H.
  destruct (compute_multi_phase_flow _ _ _ _ _ _) as [f |] eqn:Ef;
    [cbn [bind] in H | discriminate].
  destruct (range _) as [steps |] eqn:Es; [cbn [bind] in H | discriminate].
  injection H as <-. cbn [predictedStates].
  exists f. split; [reflexivity |].
  apply Steps.of_horizon in Es as (k & -> & Hk & ->).
  apply Forall_forall. intros s Hs. apply in_map_iff in Hs as (i & <- & Hi).
  exists (time_factor i (PyInt k)). split; [| split; [| reflexivity]].
  - apply (Steps.time_factors 30); [vm_compute; reflexivity | exact Hk |].
    exact Hi.
  - apply (Steps.time_factors 30); [vm_compute; reflexivity | exact Hk |].
    exact Hi.
Qed.

Lemma multi_phase_trajectory_witness :
  exists r,
    simulate_multi_phase (M := sample_libm) (sample_backend false) 0
                         no_parameters = Ok r
    /\ List.length (predictedStates r) = 30%nat
    /\ exists f,
         compute_multi_phase_flow (M := sample_libm) (sample_backend false)
                                  150.0 1.5 0.5 no_geometry no_properties
         = Ok f
         /\ Forall
              (fun s =>
                 exists tf,
                   unit_interval tf = true /\ growth_range tf = true
                   /\ s = (150.0 - 2 * tf,
                           MultiPhase.effectiveViscosity f * (1 + 0.5 * tf)))
              (predictedStates r).
Proof.
  destruct (simulate_multi_phase (M := sample_libm) (sample_backend false) 0
                                 no_parameters)
    as [r |] eqn:E; [| vm_compute in E; discriminate E].
  exists r. split; [reflexivity |]. split.
  - vm_compute in E. injection E as <-. reflexivity.
  - exact (multi_phase_trajectory sample_libm (sample_backend false) 0
             no_parameters r E).
Defined.

(** X14.  For a request whose numeric parameters are floats and whose
    time horizon is absent or an int, a tank simulation fails exactly when
    its physics module fails, and with the module's exception: the step
    count, the trajectory and the setpoints never raise.  The one addition
    is the thermal-coil energy, which multiplies by the horizon and raises
    [OverflowError] for an int beyond the range of binary64. *)
Theorem integer_horizon_failures :
  forall (M : Libm) (B : Backend) (n : nat) (p : Parameters) (e : exn),
    integer_horizon p = true ->
    (simulate_fluid_dynamics B n p = Raise e
     <-> compute_fluid_dynamics B (get (temperature p) 120.0)
                                (get (pressure p) 2.0) (get (flowRate p) 1.0)
                                (get (geometry p) no_geometry)
                                (get (materialProperties p) no_properties)
         = Raise e)
    /\ (simulate_multi_phase B n p = Raise e
        <-> compute_multi_phase_flow B (get (temperature p) 150.0)
                                     (get (pressure p) 1.5)
                                     (get (flowRate p) 0.5)
                                     (get (geometry p) no_geometry)
                                     (get (materialProperties p) no_properties)
            = Raise e)
    /\ (simulate_thermal_coil B n p = Raise e
        <-> match
              compute_heat_transfer
                B (get (temperature p) 120.0)
                (get (coilInletTemp (get (boundaryConditions p) no_conditions))
                     180.0)
                (get (flowRate p) 1.0) (get (geometry p) no_geometry)
                (get (materialProperties p) no_properties)
            with
            | Raise e' => e' = e
            | Ok _ => horizon_overflows p = true /\ e = OverflowError
            end).
Proof.
  intros M B n p e Hint.
  assert (Hh : exists h, get (timeHorizon p) (PyInt 3600) = PyInt h
                         /\ (horizon_overflows p = is_infinity (Z2float h))).
  { unfold integer_horizon in Hint. unfold horizon_overflows.
    destruct (timeHorizon p) as [[h | x] |]; [| discriminate |].
    - exists h. split; reflexivity.
    - exists 3600%Z. split; reflexivity. }
  assert (Hh' : exists h, get (timeHorizon p) (PyInt 1800) = PyInt h).
  { unfold integer_horizon in Hint.
    destruct (timeHorizon p) as [[h | x] |]; [| discriminate |];
      eexists; reflexivity. }
  destruct Hh as (h & Hh & Hover). destruct Hh' as (h' & Hh').
  split; [| split].
  - unfold simulate_fluid_dynamics. destruct (clock B n) as [t0 t1].
    cbv zeta. rewrite Hh.
    destruct (compute_fluid_dynamics _ _ _ _ _ _) as [f | e'];
      cbn [bind]; [| split; intros [= ->]; reflexivity].
    destruct (Steps.of_integer_horizon M 60 h) as (steps & ->). cbn [bind].
    split; discriminate.
  - unfold simulate_multi_phase. destruct (clock B n) as [t0 t1].
    cbv zeta. rewrite Hh'.
    destruct (compute_multi_phase_flow _ _ _ _ _ _) as [f | e'];
      cbn [bind]; [| split; intros [= ->]; reflexivity].
    destruct (Steps.of_integer_horizon M 30 h') as (steps & ->). cbn [bind].
    split; discriminate.
  - unfold simulate_thermal_coil. destruct (clock B n) as [t0 t1].
    cbv zeta. rewrite Hh.
    destruct (compute_heat_transfer _ _ _ _ _ _) as [r | e'];
      cbn [bind]; [| split; congruence].
    destruct (Steps.of_integer_horizon M 60 h) as (steps & ->). cbn [bind].
    rewrite Hover. unfold mul_pynum, float_of_Z. cbv zeta.
    destruct (is_infinity (Z2float h)); cbn [bind].
    + split; [intros [= <-]; split; reflexivity | intros [_ ->]; reflexivity].
    + split; [discriminate | intros [? _]; discriminate].
Qed.

Lemma integer_horizon_failures_witness :
  simulate_thermal_coil (M := sample_libm) (sample_backend false) 0
                        zero_viscosity_parameters = Raise ZeroDivisionError.
Proof.
  apply (proj2 (proj2 (integer_horizon_failures
                         sample_libm (sample_backend false) 0
                         zero_viscosity_parameters ZeroDivisionError
                         eq_refl))).
  vm_compute. reflexivity.
Defined.

(** X18.  A time horizon that is a float reaches [range] as a float
    whenever its floor-quotient by 60 is below the cap: once the physics
    module has returned, the simulation raises [TypeError] and the request
    fails.  (At or above the cap, [min] returns the int cap and the
    simulation goes on.) *)
Theorem float_horizon_raises :
  forall (M : Libm) (B : Backend) (n : nat) (p : Parameters) (x : float),
    timeHorizon p = Some (PyFloat x) ->
    ((float_floor_div x 60 <? 60) = true ->
     (exists h,
         compute_heat_transfer
           B (get (temperature p) 120.0)
           (get (coilInletTemp (get (boundaryConditions p) no_conditions))
                180.0)
           (get (flowRate p) 1.0) (get (geometry p) no_geometry)
           (get (materialProperties p) no_properties) = Ok h) ->
     simulate_thermal_coil B n p = Raise TypeError)
    /\ ((float_floor_div x 60 <? 60) = true ->
        (exists f,
            compute_fluid_dynamics
              B (get (temperature p) 120.0) (get (pressure p) 2.0)
              (get (flowRate p) 1.0) (get (geometry p) no_geometry)
              (get (materialProperties p) no_properties) = Ok f) ->
        simulate_fluid_dynamics B n p = Raise TypeError)
    /\ ((float_floor_div x 60 <? 30) = true ->
        (exists f,
            compute_multi_phase_flow
              B (get (temperature p) 150.0) (get (pressure p) 1.5)
              (get (flowRate p) 0.5) (get (geometry p) no_geometry)
              (get (materialProperties p) no_properties) = Ok f) ->
        simulate_multi_phase B n p = Raise TypeError).
Proof.
  intros M B n p x Hx. split; [| split]; intros Hlt [f Hf].
  - unfold simulate_thermal_coil. destruct (clock B n) as [t0 t1].
    cbv zeta. rewrite Hf, Hx. cbn [bind get floor_div_60 min_cap].
    change (Z2float 60) with 60. rewrite Hlt. reflexivity.
  - unfold simulate_fluid_dynamics. destruct (clock B n) as [t0 t1].
    cbv zeta. rewrite Hf, Hx. cbn [bind get floor_div_60 min_cap].
    change (Z2float 60) with 60. rewrite Hlt. reflexivity.
  - unfold simulate_multi_phase. destruct (clock B n) as [t0 t1].
    cbv zeta. rewrite Hf, Hx. cbn [bind get floor_div_60 min_cap].
    change (Z2float 30) with 30. rewrite Hlt. reflexivity.
Qed.

Lemma float_horizon_raises_witness :
  simulate_fluid_dynamics (M := sample_libm) (sample_backend false) 0
                          (laminar_parameters (PyFloat 1800.0))
  = Raise TypeError.
Proof.
  apply (proj1 (proj2 (float_horizon_raises
                         sample_libm (sample_backend false) 0
                         (laminar_parameters (PyFloat 1800.0)) 1800.0
                         eq_refl))).
  - vm_compute. reflexivity.
  - eexists. vm_compute. reflexivity.
Defined.

(** * What the physics modules read *)

(** The efficiency of the thermal coil divides only by a maximum that is
    above zero: a real heat-transfer rate gives an efficiency, and a
    complex one ends in a [TypeError], at [min] or at [float()]. *)
Lemma efficiency_returns (rate max : float) :
  exists eff,
    (if 0 <? max then q <- over (Real rate) max ;; min_number q 1.0
     else Ok 0.0)
    = Ok eff.
Proof.
  destruct (0 <? max) eqn:E; [| eexists; reflexivity].
  apply Sign.of_pos in E as [_ E]. unfold over. rewrite E.
  eexists; reflexivity.
Qed.

Lemma efficiency_complex (A : Type) (max : float)
    (k : float -> float -> result A) :
  (eff <- (if 0 <? max then q <- over Complex max ;; min_number q 1.0
           else Ok 0.0) ;;
   rate <- as_float Complex ;; k eff rate)
  = Raise TypeError.
Proof.
  destruct (0 <? max) eqn:E; [| reflexivity].
  apply Sign.of_pos in E as [_ E]. unfold over. rewrite E. reflexivity.
Qed.

(** X15.  Among parameters that are floats, the fluid-dynamics module
    reads the flow rate, the pipe radius and length, the viscosity and the
    density, and nothing else: the values of the temperature, of the
    pressure and of the pipe roughness, and the output of the network,
    change neither its velocity, Reynolds number, friction factor and
    pressure drop nor the exception it fails by. *)
Theorem fluid_dynamics_read_set :
  forall (M : Libm) (B1 B2 : Backend)
         (temperature1 temperature2 pressure1 pressure2 flow_rate : float)
         (g1 g2 : Geometry) (m1 m2 : MaterialProperties),
    pipeRadius g1 = pipeRadius g2 ->
    pipeLength g1 = pipeLength g2 ->
    viscosity m1 = viscosity m2 ->
    density m1 = density m2 ->
    map_result fluid_dynamics_numbers
      (compute_fluid_dynamics B1 temperature1 pressure1 flow_rate g1 m1)
    = map_result fluid_dynamics_numbers
        (compute_fluid_dynamics B2 temperature2 pressure2 flow_rate g2 m2).
Proof.
  intros M B1 B2 t1 t2 p1 p2 q g1 g2 m1 m2 Hr Hl Hmu Hrho.
  unfold compute_fluid_dynamics. rewrite Hr, Hl, Hmu, Hrho. cbv zeta.
  repeat match goal with
         | |- context [bind ?c _] => destruct c; cbn [bind]
         end;
    reflexivity.
Qed.

Lemma fluid_dynamics_read_set_witness :
  map_result fluid_dynamics_numbers
    (compute_fluid_dynamics (M := sample_libm) (sample_backend false)
                            120.0 2.0 0.001 no_geometry no_properties)
  = map_result fluid_dynamics_numbers
      (compute_fluid_dynamics (M := sample_libm) (sample_backend true)
                              20.0 9.0 0.001 rough_geometry no_properties).
Proof.
  exact (fluid_dynamics_read_set sample_libm (sample_backend false)
           (sample_backend true) 120.0 20.0 2.0 9.0 0.001
           no_geometry rough_geometry no_properties no_properties
           eq_refl eq_refl eq_refl eq_refl).
Defined.

(** X16.  Among parameters that are floats, the multi-phase module reads
    the temperature, the flow rate, the pipe radius and length, the
    density and the viscosity-temperature relation, and nothing else: the
    values of the pressure, of the pipe roughness, of the specific heat,
    of the thermal conductivity and of the request's own [viscosity], and
    the output of the network, change neither its velocity, effective
    viscosity, Reynolds number, friction factor and pressure drop nor the
    exception it fails by. *)
Theorem multi_phase_read_set :
  forall (M : Libm) (B1 B2 : Backend)
         (temperature pressure1 pressure2 flow_rate : float)
         (g1 g2 : Geometry) (m1 m2 : MaterialProperties),
    pipeRadius g1 = pipeRadius g2 ->
    pipeLength g1 = pipeLength g2 ->
    density m1 = density m2 ->
    viscosityTemperatureRelation m1 = viscosityTemperatureRelation m2 ->
    map_result multi_phase_numbers
      (compute_multi_phase_flow B1 temperature pressure1 flow_rate g1 m1)
    = map_result multi_phase_numbers
        (compute_multi_phase_flow B2 temperature pressure2 flow_rate g2 m2).
Proof.
  intros M B1 B2 t p1 p2 q g1 g2 m1 m2 Hr Hl Hrho Hrel.
  unfold compute_multi_phase_flow. rewrite Hr, Hl, Hrho, Hrel. cbv zeta.
  repeat match goal with
         | |- context [bind ?c _] => destruct c; cbn [bind]
         end;
    reflexivity.
Qed.

Lemma multi_phase_read_set_witness :
  map_result multi_phase_numbers
    (compute_multi_phase_flow (M := sample_libm) (sample_backend false)
                              150.0 1.5 0.5 no_geometry no_properties)
  = map_result multi_phase_numbers
      (compute_multi_phase_flow (M := sample_libm) (sample_backend true)
                                150.0 9.0 0.5 rough_geometry
                                thermal_properties).
Proof.
  exact (multi_phase_read_set sample_libm (sample_backend false)
           (sample_backend true) 150.0 1.5 9.0 0.5
           no_geometry rough_geometry no_properties thermal_properties
           eq_refl eq_refl eq_refl eq_refl).
Defined.

(** X17.  Among temperatures that are floats, neither the value of the
    tank temperature nor that of the coil inlet temperature (nor the
    network) decides whether the thermal-coil module fails, or by which
    exception, and they do not enter its Reynolds number, Nusselt number
    and surface area: the temperatures reach only the heat-transfer rate
    and the efficiency, whose division is guarded, and a complex rate
    ends in a [TypeError] on either side of that guard. *)
Theorem heat_transfer_temperatures :
  forall (M : Libm) (B1 B2 : Backend)
         (tank_temp1 tank_temp2 coil_inlet_temp1 coil_inlet_temp2
          flow_rate : float)
         (g : Geometry) (m : MaterialProperties),
    map_result heat_transfer_numbers
      (compute_heat_transfer B1 tank_temp1 coil_inlet_temp1 flow_rate g m)
    = map_result heat_transfer_numbers
        (compute_heat_transfer B2 tank_temp2 coil_inlet_temp2 flow_rate g m).
Proof.
  intros M B1 B2 t1 t2 i1 i2 q g m.
  unfold compute_heat_transfer. cbv zeta.
  destruct (py_div _ (get (viscosity m) 0.01)) as [re |]; cbn [bind];
    [| reflexivity].
  destruct (py_div _ (get (thermalConductivity m) 0.14)) as [pr |];
    cbn [bind]; [| reflexivity].
  destruct (float_pow re 0.8) as [n1 |]; cbn [bind]; [| reflexivity].
  destruct (float_pow pr 0.4) as [n2 |]; cbn [bind]; [| reflexivity].
  unfold over at 1 3.
  destruct (is_zero (get (pipeRadius g) 0.05 * 2)); cbn [bind];
    [reflexivity |].
  destruct n1 as [p1 |], n2 as [p2 |]; cbn [scale times times_float].
  - repeat match goal with
           | |- context [bind (if 0 <? ?mx
                               then q <- over (Real ?rate) ?mx ;; _
                               else _) _] =>
               let eff := fresh "eff" in
               let E := fresh "E" in
               destruct (efficiency_returns rate mx) as [eff E];
               rewrite E; cbn [bind]
           end.
    reflexivity.
  - rewrite !efficiency_complex. reflexivity.
  - rewrite !efficiency_complex. reflexivity.
  - rewrite !efficiency_complex. reflexivity.
Qed.
